(** * scripts/scan.py: the result-stream parser and the aggregation loop

    A shallow embedding of [scripts/scan.py].

    - Byte strings and decoded text are both [string], text being kept as
      its UTF-8 bytes: [", "] splits the same way before and after
      [decode].  [scan_crate] is the parser on an output that is valid
      UTF-8, where [decode] keeps the bytes; [scan_crate_bytes] is the
      parser on any bytes, each line decoded when it is read.
    - Python's [int] is [Z].
    - A [dict] is the list of its items in insertion order.
    - An exception is a value of [exn]; a function that may raise returns
      [raises A].
    - The processes the script starts and the files it reads are functions
      the model takes as Section variables.
    - The script runs without [-O]: its [assert] statements are checked.
    - Logging is left out: it changes neither the summaries nor the way
      [main] ends.
    - [main] is the script's [main] up to its sanity check;
      [main_and_report] goes on to the reports and the result files. *)

From Stdlib Require Import String Ascii List ZArith Lia Bool Permutation Sorted.
From Stdlib Require Import DecimalString.
Import ListNotations.

Open Scope string_scope.
Open Scope list_scope.
Open Scope Z_scope.

(** ** Exceptions *)

Inductive exn : Type :=
| AssertionError (msg : string)
| StopIteration
| IndexError
| KeyError (key : string)
| CalledProcessError
| UnicodeDecodeError
| OSError.

Definition raises (A : Type) : Type := (exn + A)%type.

Definition ret {A} (a : A) : raises A := inr a.

Definition raise {A} (e : exn) : raises A := inl e.

Definition bind {A B} (m : raises A) (k : A -> raises B) : raises B :=
  match m with
  | inl e => inl e
  | inr a => k a
  end.

Notation "x <- m ;; k" := (bind m (fun x => k))
  (at level 61, m at next level, right associativity).
Notation "' p <- m ;; k" := (bind m (fun x => let p := x in k))
  (at level 61, p pattern, m at next level, right associativity).

(** [assert cond, msg] *)
Definition assert (cond : bool) (msg : string) : raises unit :=
  if cond then ret tt else raise (AssertionError msg).

(** ** Strings *)

Definition nl : ascii := "010"%char.

Definition cr : ascii := "013"%char.

(** The bytes [bytes.strip()] removes: space, \t, \n, \r, \x0b, \x0c. *)
Definition is_space (c : ascii) : bool :=
  let n := nat_of_ascii c in
  (Nat.eqb n 32 || Nat.eqb n 9 || Nat.eqb n 10 || Nat.eqb n 13
   || Nat.eqb n 11 || Nat.eqb n 12)%bool.

Fixpoint lstrip (s : string) : string :=
  match s with
  | EmptyString => EmptyString
  | String c s' => if is_space c then lstrip s' else s
  end.

Fixpoint rstrip (s : string) : string :=
  match s with
  | EmptyString => EmptyString
  | String c s' =>
      let r := rstrip s' in
      if (is_space c && String.eqb r "")%bool then EmptyString else String c r
  end.

(** [x.strip()] *)
Definition strip (s : string) : string := lstrip (rstrip s).

(** [iter(proc.stdout.readline, b"")]: the successive results of
    [readline()] on a binary stream, each up to and including its newline
    byte, the last one possibly without; the iteration stops at the end of
    the stream. *)
Fixpoint readlines (s : string) : list string :=
  match s with
  | EmptyString => []
  | String c s' =>
      if Ascii.eqb c nl then String c EmptyString :: readlines s'
      else match readlines s' with
           | [] => [String c EmptyString]
           | l :: ls => String c l :: ls
           end
  end.

(** A text file is read with universal newlines: the line ends CR LF and CR
    read as LF. *)
Fixpoint universal_newlines (s : string) : string :=
  match s with
  | EmptyString => EmptyString
  | String c s' =>
      if Ascii.eqb c cr then
        String nl (match s' with
                   | EmptyString => EmptyString
                   | String c' s'' =>
                       if Ascii.eqb c' nl then universal_newlines s''
                       else universal_newlines s'
                   end)
      else String c (universal_newlines s')
  end.

(** [fh.readlines()] on a file opened with [open(cratefile, 'r')] *)
Definition text_readlines (content : string) : list string :=
  readlines (universal_newlines content).

(** [s.split(", ")] *)
Fixpoint split_comma_space (s : string) : list string :=
  match s with
  | EmptyString => [EmptyString]
  | String c s' =>
      match s' with
      | EmptyString => [String c EmptyString]
      | String c2 s'' =>
          if (Ascii.eqb c "," && Ascii.eqb c2 " ")%bool
          then EmptyString :: split_comma_space s''
          else match split_comma_space s' with
               | [] => [String c EmptyString]
               | f :: fs => String c f :: fs
               end
      end
  end.

(** [str(n)] for an [int] *)
Definition str_of_int (n : Z) : string := NilZero.string_of_int (Z.to_int n).

(** [os.path.join(a, b)] on POSIX paths. *)
Definition path_join (a b : string) : string :=
  match b with
  | String "/" _ => b
  | _ =>
      if (String.eqb a "" || String.eqb (substring (String.length a - 1) 1 a) "/")%bool
      then (a ++ b)%string
      else (a ++ "/" ++ b)%string
  end.

(** ** Constants of the script *)

Definition CARGO_SCAN_CSV_HEADER : string :=
  "crate, fn_decl, callee, effect, dir, file, line, col".

Definition CARGO_SCAN_METADATA_HEADER : string :=
  "total, loc_lb, loc_ub, macros, loc_lb, loc_ub, conditional_code, loc_lb, loc_ub, skipped_calls, loc_lb, loc_ub, skipped_fn_ptrs, loc_lb, loc_ub, skipped_other, loc_lb, loc_ub, unsafe_trait, loc_lb, loc_ub, unsafe_impl, loc_lb, loc_ub, pub_fns, pub_fns_with_effects, pub_total_effects".

Definition CRATES_DIR : string := "data/packages".

Definition TEST_CRATES_DIR : string := "data/test-packages".

(** ** Syn backend: [scan_crate] *)

(** One decoded finding: [(effect_pat, effect_csv)]. *)
Definition effect : Type := (string * string)%type.

(** [stdout_lines = map(lambda x: x.strip().decode("utf-8"),
                        iter(proc.stdout.readline, b""))] *)
Definition stdout_lines (proc_stdout : string) : list string :=
  map strip (readlines proc_stdout).

(** [next(it)]: the next line and the rest of the iterator. *)
Definition next (it : list string) : raises (string * list string) :=
  match it with
  | [] => raise StopIteration
  | x :: it' => ret (x, it')
  end.

(** The loop [for effect_csv in stdout_lines: ...] of [scan_crate]: the
    findings read and what is left of the iterator (nothing when the loop ran
    to the end of the stream without a [break]). *)
Fixpoint read_effects (it : list string) (effects : list effect)
  : raises (list effect * list string) :=
  match it with
  | [] => ret (effects, [])
  | effect_csv :: it' =>
      if String.eqb effect_csv "" then ret (effects, it')
      else match nth_error (split_comma_space effect_csv) 3 with
           | None => raise IndexError
           | Some effect_pat =>
               read_effects it' (effects ++ [(effect_pat, effect_csv)])
           end
  end.

Definition msg_header (hdr : string) : string :=
  ("Unexpected header row from scan: " ++ hdr)%string.

Definition msg_metadata_header (hdr : string) : string :=
  ("Unexpected metadata header from scan: " ++ hdr)%string.

Definition msg_extra : string := "Unexpected extra output from scan".

(** The body of [scan_crate] over the line iterator. *)
Definition scan_lines (it : list string) : raises (list effect * string) :=
  (* read header row *)
  '(hdr, it) <- next it ;;
  _ <- assert (String.eqb hdr CARGO_SCAN_CSV_HEADER) (msg_header hdr) ;;
  (* read effect CSV lines *)
  '(effects, it) <- read_effects it [] ;;
  (* read metadata *)
  '(hdr, it) <- next it ;;
  _ <- assert (String.eqb hdr CARGO_SCAN_METADATA_HEADER)
              (msg_metadata_header hdr) ;;
  '(metadata, it) <- next it ;;
  _ <- match it with
       | [] => ret tt
       | _ :: _ => assert false msg_extra
       end ;;
  ret (effects, metadata).

(** [scan_crate], as a function of the bytes the analyzer process writes to
    its standard output. *)
Definition scan_crate (proc_stdout : string) : raises (list effect * string) :=
  scan_lines (stdout_lines proc_stdout).

(** ** Python containers *)

(** [l[i]] for a list, with Python's negative indices. *)
Definition getitem {A} (l : list A) (i : Z) : raises A :=
  let n := Z.of_nat (length l) in
  let j := if i <? 0 then i + n else i in
  if ((j <? 0) || (n <=? j))%bool then raise IndexError
  else match nth_error l (Z.to_nat j) with
       | Some x => ret x
       | None => raise IndexError
       end.

(** A [dict] with string keys: its items in insertion order. *)
Definition dict (V : Type) : Type := list (string * V).

Fixpoint dict_get {V} (d : dict V) (k : string) : option V :=
  match d with
  | [] => None
  | (k', v) :: d' => if String.eqb k' k then Some v else dict_get d' k
  end.

(** [d[k]] *)
Definition dict_getitem {V} (d : dict V) (k : string) : raises V :=
  match dict_get d k with
  | Some v => ret v
  | None => raise (KeyError k)
  end.

(** [d[k] = v]: an existing key keeps its place, a new one goes last. *)
Fixpoint dict_set {V} (d : dict V) (k : string) (v : V) : dict V :=
  match d with
  | [] => [(k, v)]
  | (k', v') :: d' =>
      if String.eqb k' k then (k', v) :: d' else (k', v') :: dict_set d' k v
  end.

(** [d.setdefault(k, v)], for its effect on [d]. *)
Definition setdefault {V} (d : dict V) (k : string) (v : V) : dict V :=
  match dict_get d k with
  | Some _ => d
  | None => dict_set d k v
  end.

Definition values {V} (d : dict V) : list V := map snd d.

Definition items {V} (d : dict V) : list (string * V) := d.

(** [{c: v for c in cs}] *)
Definition dict_comprehension {V} (cs : list string) (v : V) : dict V :=
  fold_left (fun d c => dict_set d c v) cs [].

(** [sum(xs)] *)
Definition sum (xs : list Z) : Z := fold_left Z.add xs 0.

(** ** Reports *)

(** A text line: the text and its newline. *)
Definition line (s : string) : string := (s ++ String nl EmptyString)%string.

(** Insertion of one item in a list sorted by descending count, in front of
    the items whose count is not larger. *)
Fixpoint insert_desc (x : string * Z) (l : list (string * Z))
  : list (string * Z) :=
  match l with
  | [] => [x]
  | y :: l' => if snd y <=? snd x then x :: l else y :: insert_desc x l'
  end.

(** [sorted(d.items(), key=lambda x: x[1], reverse=True)].  Python's sort is
    stable, also under [reverse=True]: items with equal keys keep the order
    they have in [d.items()].  That fixes the result, and the insertion sort
    below computes it. *)
Definition sort_summary_dict (d : dict Z) : list (string * Z) :=
  fold_right insert_desc [] (items d).

(** [f"{p}: {n}\n"] *)
Definition pattern_line (x : string * Z) : string :=
  (fst x ++ ": " ++ str_of_int (snd x) ++ String nl "")%string.

Definition pattern_banner : string :=
  (line "===== Patterns =====" ++
   line "Total instances of each effect pattern:")%string.

Definition make_pattern_summary (pattern_summary : dict Z) : string :=
  let result := pattern_banner in
  let pattern_sorted := sort_summary_dict pattern_summary in
  fold_left (fun result x => (result ++ pattern_line x)%string)
            pattern_sorted result.

(** ** The run state of [main] *)

Record summaries : Type := mkSummaries {
  results : list string;
  crate_summary : dict Z;
  pattern_summary : dict Z;
  metadata_summary : dict string
}.

(** How control leaves a piece of [main]: it runs to its end, calls
    [sys.exit(code)], or an exception escapes. *)
Inductive status : Type :=
| Completed
| SysExit (code : Z)
| Raised (e : exn).

(** [results], [crate_summary], [pattern_summary] and [metadata_summary]
    before the loop over the crates. *)
Definition init_summaries (crates : list string) : summaries :=
  {| results := [];
     crate_summary := dict_comprehension crates 0;
     pattern_summary := [];
     metadata_summary := dict_comprehension crates "" |}.

(** One iteration of [for eff_pat, eff_csv in effects:] in [main].  The
    summaries returned are the ones in force when control leaves the
    iteration. *)
Definition fold_effect (crate : string) (s : summaries) (e : effect)
  : summaries * status :=
  let '(eff_pat, eff_csv) := e in
  let s1 := {| results := results s ++ [eff_csv];
               crate_summary := crate_summary s;
               pattern_summary := pattern_summary s;
               metadata_summary := metadata_summary s |} in
  (* Update summaries *)
  match dict_getitem (crate_summary s1) crate with
  | inl e => (s1, Raised e)
  | inr n =>
      let s2 := {| results := results s1;
                   crate_summary := dict_set (crate_summary s1) crate (n + 1);
                   pattern_summary := setdefault (pattern_summary s1) eff_pat 0;
                   metadata_summary := metadata_summary s1 |} in
      match dict_getitem (pattern_summary s2) eff_pat with
      | inl e => (s2, Raised e)
      | inr m =>
          ({| results := results s2;
              crate_summary := crate_summary s2;
              pattern_summary := dict_set (pattern_summary s2) eff_pat (m + 1);
              metadata_summary := metadata_summary s2 |}, Completed)
      end
  end.

Fixpoint fold_effects (crate : string) (s : summaries) (effects : list effect)
  : summaries * status :=
  match effects with
  | [] => (s, Completed)
  | e :: effects' =>
      match fold_effect crate s e with
      | (s', Completed) => fold_effects crate s' effects'
      | stop => stop
      end
  end.

(** [metadata_summary[crate] = metadata] *)
Definition store_metadata (crate : string) (metadata : string) (s : summaries)
  : summaries :=
  {| results := results s;
     crate_summary := crate_summary s;
     pattern_summary := pattern_summary s;
     metadata_summary := dict_set (metadata_summary s) crate metadata |}.

(** The sanity check after the loop: [true] when the error is logged. *)
Definition inconsistent (s : summaries) : bool :=
  negb (sum (values (crate_summary s)) =? sum (values (pattern_summary s))).

Inductive log_level : Type := DEBUG | INFO | WARNING | ERROR.

(** The verbosity check of [main] and the choice of the log level. *)
Definition select_log_level (verbose : Z) : status + log_level :=
  if verbose >? 5 then inl (SysExit 1)
  else match getitem [INFO; ERROR; WARNING; INFO; DEBUG] verbose with
       | inl e => inl (Raised e)
       | inr log_level => inr log_level
       end.

(** The command line: [-c CRATE] and [-i INFILE] exclude each other and one
    of them is required. *)
Inductive target : Type :=
| Crate (crate : string)
| Infile (infile : string).

Record arguments : Type := mkArguments {
  arg_target : target;
  test_run : bool;
  output_prefix : option string;
  std : bool;
  verbose : Z
}.

(** ** [main] and the world outside the script *)

Section Main.

(** the text of a file *)
Variable read_text : string -> string.
(** the rows [csv.reader(infile, delimiter=',')] yields for a file *)
Variable csv_reader : string -> list (list string).
(** [os.path.exists] *)
Variable path_exists : string -> bool.
(** the exit status of [cargo download -x crate -o target] *)
Variable cargo_download : string -> string -> Z.
(** what [./target/release/scan crate_dir -e] writes to its standard output *)
Variable cargo_scan : string -> string.

Definition count_lines (cratefile : string) (header_row : bool) : Z :=
  let result := Z.of_nat (length (text_readlines (read_text cratefile))) in
  if header_row then result - 1 else result.

(** The loop of [get_crate_names] over the rows numbered from [i]. *)
Fixpoint crate_names_from (i : Z) (rows : list (list string))
         (crates : list string) : raises (list string) :=
  match rows with
  | [] => ret crates
  | row :: rows' =>
      if i >? 0 then
        match nth_error row 0 with
        | None => raise IndexError
        | Some c => crate_names_from (i + 1) rows' (crates ++ [c])
        end
      else crate_names_from (i + 1) rows' crates
  end.

Definition get_crate_names (cratefile : string) : raises (list string) :=
  crate_names_from 0 (csv_reader cratefile) [].

(** [download_crate]: raises when [cargo download] has to run and fails. *)
Definition download_crate (crates_dir crate : string) (test_run : bool)
  : raises unit :=
  let target := path_join crates_dir crate in
  if path_exists target then ret tt
  else if test_run then ret tt
  else if cargo_download crate target =? 0 then ret tt
  else raise CalledProcessError.

(** [(num_crates, crates)] *)
Definition enumerate_crates (a : arguments) : raises (Z * list string) :=
  match arg_target a with
  | Crate crate => ret (1, [crate])
  | Infile infile =>
      let num_crates := count_lines infile true in
      crates <- get_crate_names infile ;;
      ret (num_crates, crates)
  end.

Definition crates_infostr (a : arguments) (num_crates : Z) : string :=
  match arg_target a with
  | Crate crate => crate
  | Infile infile => (str_of_int num_crates ++ " crates from " ++ infile)%string
  end.

(** The body of [for i, crate in enumerate(crates):]. *)
Definition scan_one (crates_dir : string) (test_run : bool)
           (s : summaries) (crate : string) : summaries * status :=
  match download_crate crates_dir crate test_run with
  | inl _ => (s, SysExit 1)
  | inr _ =>
      let crate_dir := path_join crates_dir crate in
      match scan_crate (cargo_scan crate_dir) with
      | inl e => (s, Raised e)
      | inr (effects, metadata) =>
          match fold_effects crate s effects with
          | (s', Completed) => (store_metadata crate metadata s', Completed)
          | stop => stop
          end
      end
  end.

Fixpoint scan_all (crates_dir : string) (test_run : bool)
         (s : summaries) (crates : list string) : summaries * status :=
  match crates with
  | [] => (s, Completed)
  | crate :: crates' =>
      match scan_one crates_dir test_run s crate with
      | (s', Completed) => scan_all crates_dir test_run s' crates'
      | stop => stop
      end
  end.

(** [main], up to the sanity check: how it ends, and the summaries then
    ([None] when it ends before they exist). *)
Definition main (a : arguments) : option summaries * status :=
  match select_log_level (verbose a) with
  | inl stop => (None, stop)
  | inr _ =>
      let crates_dir := if test_run a then TEST_CRATES_DIR else CRATES_DIR in
      match enumerate_crates a with
      | inl e => (None, Raised e)
      | inr (num_crates, crates) =>
          let '(s, st) :=
            scan_all crates_dir (test_run a) (init_summaries crates) crates in
          (Some s, st)
      end
  end.

(** What a failed parse of a crate's stream does to the run: [scan_one]
    leaves the summaries as they were, and the loop stops there with the
    summaries it had after the crates before. *)
Definition aborts_crate (crates_dir : string) (test_run : bool)
           (crate : string) (e : exn) : Prop :=
  scan_crate (cargo_scan (path_join crates_dir crate)) = raise e /\
  (forall s, scan_one crates_dir test_run s crate = (s, Raised e)) /\
  (forall s0 s before after,
      scan_all crates_dir test_run s0 before = (s, Completed) ->
      scan_all crates_dir test_run s0 (before ++ crate :: after)
      = (s, Raised e)).

End Main.

(** ** Vocabulary of the properties *)

(** A line the findings loop decodes: not blank, with a column 3. *)
Definition finding_line (l : string) : Prop :=
  l <> "" /\ (4 <= length (split_comma_space l))%nat.

(** A finding record of the protocol: not blank, with as many columns as the
    finding header. *)
Definition record_line (l : string) : Prop :=
  l <> "" /\
  length (split_comma_space l) = length (split_comma_space CARGO_SCAN_CSV_HEADER).

(** What [scan_crate] appends to [effects] for the line [l]. *)
Definition effect_of (l : string) : effect :=
  (nth 3 (split_comma_space l) "", l).

Definition blank (l : string) : bool := String.eqb l "".

(** A stream without the blank separator: the finding lines run into the
    metadata header and the metadata row. *)
Definition missing_separator (lines : list string) : Prop :=
  exists fs metadata,
    lines = CARGO_SCAN_CSV_HEADER :: fs ++ [CARGO_SCAN_METADATA_HEADER; metadata] /\
    Forall (fun l => l <> "") fs.

(** A well-formed stream followed by a non-empty line. *)
Definition trailing_line (lines : list string) : Prop :=
  exists fs metadata x extra,
    lines = CARGO_SCAN_CSV_HEADER :: fs ++ "" :: CARGO_SCAN_METADATA_HEADER
                                  :: metadata :: x :: extra /\
    Forall finding_line fs /\ x <> "".

(** The count a summary holds for a key, 0 when it has no bucket. *)
Definition count_of (d : dict Z) (k : string) : Z :=
  match dict_get d k with
  | Some n => n
  | None => 0
  end.

(** The cross-summary invariant. *)
Definition consistent (s : summaries) : Prop :=
  sum (values (crate_summary s)) = sum (values (pattern_summary s)).

(** The summaries [main] passes through: the initial ones, the ones at the
    end of each iteration of the findings loop, and the ones after each
    metadata row is stored. *)
Inductive run_state : summaries -> Prop :=
| run_init crates : run_state (init_summaries crates)
| run_effect crate s e :
    run_state s -> run_state (fst (fold_effect crate s e))
| run_metadata crate metadata s :
    run_state s -> run_state (store_metadata crate metadata s).

Definition by_count_desc (x y : string * Z) : Prop := snd y <= snd x.

(** The lines of a report, one after the other. *)
Definition render_lines (xs : list (string * Z)) : string :=
  fold_right (fun x r => (pattern_line x ++ r)%string) "" xs.

(** No newline byte inside the text. *)
Fixpoint no_newline (s : string) : bool :=
  match s with
  | EmptyString => true
  | String c s' => (negb (Ascii.eqb c nl) && no_newline s')%bool
  end.

(** No line end of a text file inside the text. *)
Fixpoint no_eol (s : string) : bool :=
  match s with
  | EmptyString => true
  | String c s' => (negb (Ascii.eqb c nl) && negb (Ascii.eqb c cr) && no_eol s')%bool
  end.

(** The text of the given lines, each ended by a newline. *)
Definition unlines (ls : list string) : string :=
  fold_right (fun l r => (l ++ String nl r)%string) "" ls.

(** *** Sample streams and worlds *)

Definition scenario_row : string := "my_crate, f, g, FileRead, ./, a.rs, 10, 4".

Definition scenario_metadata : string :=
  "5, 1,1,0,0,0,0,0,0,0,0,0,0,0,0,0,0,0,0,0,1,1,0".

(** The scenario stream of the specification. *)
Definition scenario_stream : string :=
  (line CARGO_SCAN_CSV_HEADER ++ line scenario_row ++ line ""
   ++ line CARGO_SCAN_METADATA_HEADER ++ line scenario_metadata)%string.

Definition bad_header_stream : string :=
  (line "crate, fn_decl, callee, effect" ++ line scenario_row)%string.

Definition bad_metadata_header_stream : string :=
  (line CARGO_SCAN_CSV_HEADER ++ line scenario_row ++ line ""
   ++ line "total, loc_lb" ++ line scenario_metadata)%string.

Definition no_separator_stream : string :=
  (line CARGO_SCAN_CSV_HEADER ++ line scenario_row
   ++ line CARGO_SCAN_METADATA_HEADER ++ line "5, 1, 1, 0, 0")%string.

Definition no_separator_scenario_stream : string :=
  (line CARGO_SCAN_CSV_HEADER ++ line scenario_row
   ++ line CARGO_SCAN_METADATA_HEADER ++ line scenario_metadata)%string.

Definition list_file_text : string :=
  unlines ["name,downloads"; "serde,100"; "rand,90"; "libc,80"].

(** A world with every crate in place and one analyzer output for all. *)
Definition one_crate_world (out : string) : string -> string := fun _ => out.

Definition always_there : string -> bool := fun _ => true.

Definition download_succeeds : string -> string -> Z := fun _ _ => 0.

(** ** The rest of the script: reports, result files, progress *)

Definition PROGRESS_INCS : Z := 10.

Definition RESULTS_DIR : string := "data/results".

Definition RESULTS_ALL_SUFFIX : string := "_all.csv".

Definition RESULTS_PATTERN_SUFFIX : string := "_pattern.txt".

Definition RESULTS_SUMMARY_SUFFIX : string := "_summary.txt".

Definition RESULTS_METADATA_SUFFIX : string := "_metadata.csv".

(** [os.path.join(dir, f"{prefix}{suffix}")] *)
Definition make_path (dir prefix suffix : string) : string :=
  path_join dir (prefix ++ suffix)%string.

(** [sort_summary_dict] for the values of any summary, [leb] being the order
    [<=] Python has on them: descending, items with equal values in the order
    of [d.items()]. *)
Fixpoint insert_desc_by {V} (leb : V -> V -> bool) (x : string * V)
         (l : list (string * V)) : list (string * V) :=
  match l with
  | [] => [x]
  | y :: l' => if leb (snd y) (snd x) then x :: l
               else y :: insert_desc_by leb x l'
  end.

Definition sort_summary_dict_by {V} (leb : V -> V -> bool) (d : dict V)
  : list (string * V) :=
  fold_right (insert_desc_by leb) [] (items d).

(** One iteration of the loop of [make_crate_summary] over
    [(result, num_nonzero, num_zero)]. *)
Definition crate_summary_step (st : string * Z * Z) (x : string * Z)
  : string * Z * Z :=
  let '(result, num_nonzero, num_zero) := st in
  if snd x >? 0 then ((result ++ pattern_line x)%string, num_nonzero + 1, num_zero)
  else (result, num_nonzero, num_zero + 1).

Definition crate_banner : string :=
  (line "===== Crate Summary =====" ++ line "Number of effects by crate:")%string.

Definition crate_totals (num_nonzero num_zero : Z) : string :=
  (line "===== Crate Totals ====="
   ++ line (str_of_int num_nonzero ++ " crates with 1 or more effects")
   ++ line (str_of_int num_zero ++ " crates with 0 effects"))%string.

Definition make_crate_summary (crate_summary : dict Z) : string :=
  let result := crate_banner in
  let crate_sorted := sort_summary_dict crate_summary in
  let '(result, num_nonzero, num_zero) :=
    fold_left crate_summary_step crate_sorted (result, 0, 0) in
  (result ++ crate_totals num_nonzero num_zero)%string.

(** [f"{k}, {m}\n"] *)
Definition metadata_line (x : string * string) : string :=
  line (fst x ++ ", " ++ snd x).

Definition metadata_banner : string :=
  line ("crate, " ++ CARGO_SCAN_METADATA_HEADER).

(** The metadata rows are strings: Python orders them by code point, which
    on UTF-8 text is the order of the bytes. *)
Definition make_metadata_csv (metadata_summary : dict string) : string :=
  let result := metadata_banner in
  let metadata_sorted := sort_summary_dict_by String.leb metadata_summary in
  fold_left (fun result x => (result ++ metadata_line x)%string)
            metadata_sorted result.

(** What [main] writes to the file of all results. *)
Definition all_results_text (results : list string) : string :=
  fold_left (fun text eff_csv => (text ++ line eff_csv)%string)
            results (line CARGO_SCAN_CSV_HEADER).

(** The files [main] writes under an output prefix, in the order it writes
    them: path and text. *)
Definition saved_results (prefix : string) (s : summaries)
  : list (string * string) :=
  [ (make_path RESULTS_DIR prefix RESULTS_ALL_SUFFIX,
     all_results_text (results s));
    (make_path RESULTS_DIR prefix RESULTS_PATTERN_SUFFIX,
     make_pattern_summary (pattern_summary s));
    (make_path RESULTS_DIR prefix RESULTS_SUMMARY_SUFFIX,
     make_crate_summary (crate_summary s));
    (make_path RESULTS_DIR prefix RESULTS_METADATA_SUFFIX,
     make_metadata_csv (metadata_summary s)) ].

(** The progress line of the iteration [i] of the loop over the crates: the
    percentage logged, if any.  Python's [//] and [%] round to minus
    infinity, as [Z.div] and [Z.modulo] do; [and] does not evaluate
    [i % progress_inc] unless [progress_inc > 0]. *)
Definition progress_message (num_crates i : Z) : option Z :=
  let progress_inc := num_crates / PROGRESS_INCS in
  if ((progress_inc >? 0) && (i >? 0))%bool
  then if i mod progress_inc =? 0 then Some (100 * i / num_crates) else None
  else None.

Definition keys {V} (d : dict V) : list string := map fst d.

(** Every crate of the list has a bucket in the crate summary. *)
Definition has_buckets (crates : list string) (s : summaries) : Prop :=
  forall c, In c crates -> exists n, dict_get (crate_summary s) c = Some n.

(** The findings and the metadata row of a crate, when its stream parses. *)
Definition findings_of (cargo_scan : string -> string)
           (crates_dir crate : string) : list effect :=
  match scan_crate (cargo_scan (path_join crates_dir crate)) with
  | inr (effects, _) => effects
  | inl _ => []
  end.

Definition metadata_of (cargo_scan : string -> string)
           (crates_dir crate : string) : string :=
  match scan_crate (cargo_scan (path_join crates_dir crate)) with
  | inr (_, metadata) => metadata
  | inl _ => EmptyString
  end.

(** The number of findings with a given pattern. *)
Definition count_pattern (p : string) (effects : list effect) : nat :=
  length (filter (fun e => String.eqb (fst e) p) effects).

(** A line as [scan_crate] reads it: stripped, without a newline inside. *)
Definition stripped_line (l : string) : Prop :=
  strip l = l /\ no_newline l = true.

(** [sep.join(ls)] with the separator [", "] *)
Fixpoint join_comma_space (ls : list string) : string :=
  match ls with
  | [] => EmptyString
  | [x] => x
  | x :: ls' => (x ++ ", " ++ join_comma_space ls')%string
  end.

(** What a run keeps true of its summaries, [crates] being its crates: the
    crate and metadata summaries have the crates for keys, each once; the
    pattern summary has no key twice and no count below 1; there are as many
    raw results as the crate summary counts; no crate count is negative;
    every raw result is a stripped line. *)
Definition run_inv (crates : list string) (s : summaries) : Prop :=
  keys (crate_summary s) = keys (dict_comprehension crates 0) /\
  keys (metadata_summary s) = keys (dict_comprehension crates EmptyString) /\
  NoDup (keys (pattern_summary s)) /\
  Z.of_nat (length (results s)) = sum (values (crate_summary s)) /\
  Forall (fun n => 0 <= n) (values (crate_summary s)) /\
  Forall (fun n => 0 < n) (values (pattern_summary s)) /\
  Forall stripped_line (results s).

Definition truncated_stream : string :=
  (line CARGO_SCAN_CSV_HEADER ++ line scenario_row ++ line "")%string.

(** A test run over a list file naming the crates [serde] and [rand], the
    analyzer writing [out] for each. *)
Definition list_args : arguments :=
  mkArguments (Infile "crates.csv") true None false 0.

Definition list_reader : string -> list (list string) :=
  fun _ => [["name"]; ["serde"]; ["rand"]].

Definition list_text : string -> string :=
  fun _ => unlines ["name"; "serde"; "rand"].

Definition list_run (out : string) : option summaries * status :=
  main list_text list_reader always_there download_succeeds
       (one_crate_world out) list_args.

Definition list_run_summaries (out : string) : summaries :=
  match fst (list_run out) with
  | Some s => s
  | None => init_summaries []
  end.

(** A run outside test mode in which nothing is there and no download
    succeeds. *)
Definition never_there : string -> bool := fun _ => false.

Definition download_fails : string -> string -> Z := fun _ _ => 101.

Definition fetch_args : arguments :=
  mkArguments (Crate "my_crate") false None false 0.

(** Where the result files go: under [RESULTS_DIR], unless the prefix is an
    absolute path. *)
Definition results_base (prefix : string) : string :=
  match prefix with
  | String "/" _ => EmptyString
  | _ => "data/results/"
  end.

(** What the body of the loop over the crates does for a crate of the run:
    [s] before, [s'] and the status after. *)
Definition scan_one_post (path_exists : string -> bool)
           (cargo_download : string -> string -> Z)
           (cargo_scan : string -> string)
           (crates_dir : string) (test_run : bool) (crate : string)
           (s s' : summaries) (st : status) : Prop :=
  match st with
  | Completed =>
      exists effects metadata,
        scan_crate (cargo_scan (path_join crates_dir crate))
        = ret (effects, metadata) /\
        results s' = results s ++ map snd effects /\
        (forall c, count_of (crate_summary s') c
                   = count_of (crate_summary s) c
                     + (if String.eqb c crate
                        then Z.of_nat (length effects) else 0)) /\
        (forall p, count_of (pattern_summary s') p
                   = count_of (pattern_summary s) p
                     + Z.of_nat (count_pattern p effects)) /\
        dict_get (metadata_summary s') crate = Some metadata /\
        (forall c, c <> crate ->
                   dict_get (metadata_summary s') c
                   = dict_get (metadata_summary s) c)
  | SysExit code =>
      code = 1 /\ s' = s /\
      download_crate path_exists cargo_download crates_dir crate test_run
      = raise CalledProcessError
  | Raised e =>
      s' = s /\ scan_crate (cargo_scan (path_join crates_dir crate)) = raise e
  end.

(** Descending order of the values for the order [leb]. *)
Definition desc_by {V} (leb : V -> V -> bool) (x y : string * V) : Prop :=
  leb (snd y) (snd x) = true.

(** ** The process and its exit status *)

(** The exit status of the interpreter running the script: 0 when [main]
    runs to its end, the argument of [sys.exit] (its low eight bits), and 1
    when an exception escapes [main], which nothing above it catches. *)
Definition exit_status (st : status) : Z :=
  match st with
  | Completed => 0
  | SysExit code => code mod 256
  | Raised _ => 1
  end.

(** ** Decoding the analyzer's output *)

(** [decode("utf-8")] accepts the well-formed byte sequences of UTF-8 and
    nothing else: no overlong form, no surrogate, nothing above U+10FFFF, no
    sequence cut short.  [utf8_from lo hi pending s]: [pending] continuation
    bytes are still due, the next of them between [lo] and [hi], the ones
    after it between 0x80 and 0xBF. *)
Fixpoint utf8_from (lo hi pending : nat) (s : string) : bool :=
  match s with
  | EmptyString => Nat.eqb pending 0
  | String c s' =>
      let n := nat_of_ascii c in
      match pending with
      | O =>
          if (n <=? 127)%nat then utf8_from 128 191 0 s'
          else if ((194 <=? n) && (n <=? 223))%nat%bool
          then utf8_from 128 191 1 s'
          else if (n =? 224)%nat then utf8_from 160 191 2 s'
          else if (n =? 237)%nat then utf8_from 128 159 2 s'
          else if ((225 <=? n) && (n <=? 239))%nat%bool
          then utf8_from 128 191 2 s'
          else if (n =? 240)%nat then utf8_from 144 191 3 s'
          else if ((241 <=? n) && (n <=? 243))%nat%bool
          then utf8_from 128 191 3 s'
          else if (n =? 244)%nat then utf8_from 128 143 3 s'
          else false
      | S pending' =>
          if ((lo <=? n) && (n <=? hi))%nat%bool
          then utf8_from 128 191 pending' s'
          else false
      end
  end.

Definition utf8_valid (s : string) : bool := utf8_from 128 191 0 s.

(** [x.decode("utf-8")]: text is kept as its UTF-8 bytes, so that decoding
    is the check that they are well formed. *)
Definition decode_utf8 (x : string) : raises string :=
  if utf8_valid x then ret x else raise UnicodeDecodeError.

(** [next(stdout_lines)] on the lazy [map] over the raw lines: a line is
    stripped and decoded when it is asked for, not before. *)
Definition next_decoded (it : list string) : raises (string * list string) :=
  match it with
  | [] => raise StopIteration
  | x :: it' => l <- decode_utf8 (strip x) ;; ret (l, it')
  end.

(** The findings loop of [scan_crate] over the raw lines. *)
Fixpoint read_effects_decoded (it : list string) (effects : list effect)
  : raises (list effect * list string) :=
  match it with
  | [] => ret (effects, [])
  | x :: it' =>
      match decode_utf8 (strip x) with
      | inl e => raise e
      | inr effect_csv =>
          if String.eqb effect_csv "" then ret (effects, it')
          else match nth_error (split_comma_space effect_csv) 3 with
               | None => raise IndexError
               | Some effect_pat =>
                   read_effects_decoded it' (effects ++ [(effect_pat, effect_csv)])
               end
      end
  end.

(** The body of [scan_crate] over the raw lines of the analyzer's output.
    The last loop asks for one more line, which is decoded before the
    assertion fails. *)
Definition scan_lines_decoded (it : list string)
  : raises (list effect * string) :=
  '(hdr, it) <- next_decoded it ;;
  _ <- assert (String.eqb hdr CARGO_SCAN_CSV_HEADER) (msg_header hdr) ;;
  '(effects, it) <- read_effects_decoded it [] ;;
  '(hdr, it) <- next_decoded it ;;
  _ <- assert (String.eqb hdr CARGO_SCAN_METADATA_HEADER)
              (msg_metadata_header hdr) ;;
  '(metadata, it) <- next_decoded it ;;
  _ <- match it with
       | [] => ret tt
       | _ :: _ => _ <- next_decoded it ;; assert false msg_extra
       end ;;
  ret (effects, metadata).

(** [scan_crate] on any bytes, well-formed UTF-8 or not. *)
Definition scan_crate_bytes (proc_stdout : string)
  : raises (list effect * string) :=
  scan_lines_decoded (readlines proc_stdout).

(** A stream with a byte that is no UTF-8 in its second line. *)
Definition undecodable_stream : string :=
  (line CARGO_SCAN_CSV_HEADER
   ++ line ("my_crate, f, g, File" ++ String "255"%char "Read, ./, a.rs, 10, 4")
   ++ line "" ++ line CARGO_SCAN_METADATA_HEADER
   ++ line scenario_metadata)%string.

(** The same line after a header that is not the finding header. *)
Definition undecodable_after_bad_header : string :=
  (line "crate, fn_decl"
   ++ line ("my_crate, f, g, File" ++ String "255"%char "Read, ./, a.rs, 10, 4"))%string.

(** The scenario stream with blanks around its two headers. *)
Definition padded_header : string :=
  ("  " ++ CARGO_SCAN_CSV_HEADER ++ "  ")%string.

Definition padded_metadata_header : string :=
  (" " ++ CARGO_SCAN_METADATA_HEADER ++ " ")%string.

Definition padded_stream : string :=
  (line padded_header ++ line scenario_row ++ line ""
   ++ line padded_metadata_header ++ line scenario_metadata)%string.

(** ** [main] to its last line *)

Section Report.

(** what happens when [main] opens a result file and writes its text: the
    file is written, or an exception is raised *)
Variable write_file : string -> string -> raises unit.

(** The four [with open(path, 'w') as fh:] blocks, one after the other. *)
Fixpoint write_files (files : list (string * string)) : status :=
  match files with
  | [] => Completed
  | (path, text) :: files' =>
      match write_file path text with
      | inl e => Raised e
      | inr _ => write_files files'
      end
  end.

(** [main] after the sanity check: the reports are logged, or saved when
    there is an output prefix. *)
Definition report (a : arguments) (s : summaries) : status :=
  match output_prefix a with
  | None => Completed
  | Some prefix => write_files (saved_results prefix s)
  end.

(** [main] from its first line to its last. *)
Definition main_and_report (read_text : string -> string)
           (csv_reader : string -> list (list string))
           (path_exists : string -> bool)
           (cargo_download : string -> string -> Z)
           (cargo_scan : string -> string)
           (a : arguments) : option summaries * status :=
  match main read_text csv_reader path_exists cargo_download cargo_scan a with
  | (Some s, Completed) => (Some s, report a s)
  | stop => stop
  end.

End Report.

(** A file system in which the results directory is missing. *)
Definition no_results_dir : string -> string -> raises unit :=
  fun _ _ => raise OSError.

Definition writes_succeed : string -> string -> raises unit :=
  fun _ _ => ret tt.

Definition saving_args : arguments :=
  mkArguments (Infile "crates.csv") true (Some "run1") false 0.

(** * Properties *)

(** ** Lines of the stream *)

Lemma append_nil_r s : (s ++ "")%string = s.
Proof. induction s as [|c s IH]; simpl; [reflexivity|now rewrite IH]. Qed.

Lemma append_assoc s t u : ((s ++ t) ++ u)%string = (s ++ (t ++ u))%string.
Proof. induction s as [|c s IH]; simpl; [reflexivity|now rewrite IH]. Qed.

Lemma readlines_line l rest :
  no_newline l = true ->
  readlines (l ++ String nl rest) = line l :: readlines rest.
Proof.
  unfold line. induction l as [|c l IH]; intros H.
  - reflexivity.
  - cbn [no_newline] in H. apply andb_prop in H as [Hnl Hl].
    apply negb_true_iff in Hnl.
    cbn [append readlines]. rewrite Hnl. now rewrite IH.
Qed.

Lemma rstrip_line l : rstrip (line l) = rstrip l.
Proof.
  unfold line. induction l as [|c l IH]; [reflexivity|].
  cbn [append rstrip]. now rewrite IH.
Qed.

Lemma strip_line l : strip (line l) = strip l.
Proof. unfold strip. now rewrite rstrip_line. Qed.

(** The lines [scan_crate] reads from a stream of newline-ended lines are
    these lines, stripped. *)
Lemma stdout_lines_unlines ls :
  Forall (fun l => no_newline l = true) ls ->
  stdout_lines (unlines ls) = map strip ls.
Proof.
  unfold stdout_lines. induction 1 as [|l ls Hl _ IH]; [reflexivity|].
  cbn [unlines fold_right]. fold (unlines ls).
  rewrite readlines_line by exact Hl. cbn [map].
  now rewrite strip_line, IH.
Qed.

(** ** The parser *)

Lemma record_line_finding_line l : record_line l -> finding_line l.
Proof.
  intros [Hne Hlen]. split; [exact Hne|].
  rewrite Hlen. vm_compute. lia.
Qed.

Lemma nth_error_column3 l :
  (4 <= length (split_comma_space l))%nat ->
  nth_error (split_comma_space l) 3 = Some (fst (effect_of l)).
Proof.
  intros H. unfold effect_of; simpl fst.
  apply nth_error_nth'. lia.
Qed.

Lemma read_effects_findings fs :
  Forall finding_line fs ->
  forall rest acc,
    read_effects (fs ++ "" :: rest) acc = ret (acc ++ map effect_of fs, rest).
Proof.
  induction 1 as [|f fs [Hne Hcol] _ IH]; intros rest acc;
    cbn [read_effects app map].
  - now rewrite String.eqb_refl, app_nil_r.
  - apply String.eqb_neq in Hne. rewrite Hne.
    rewrite (nth_error_column3 f Hcol).
    rewrite IH. unfold effect_of at 2; simpl fst.
    now rewrite <- app_assoc.
Qed.

(** Without a blank line the findings loop runs on: it raises [IndexError]
    at a line with fewer than four columns or goes on with what follows. *)
Lemma read_effects_no_blank ls :
  Forall (fun l => l <> "") ls ->
  forall tail acc,
    read_effects (ls ++ tail) acc = raise IndexError \/
    exists acc', read_effects (ls ++ tail) acc = read_effects tail acc'.
Proof.
  induction 1 as [|l ls Hne _ IH]; intros tail acc; cbn [read_effects app].
  - right. now exists acc.
  - apply String.eqb_neq in Hne. rewrite Hne.
    destruct (nth_error (split_comma_space l) 3) as [p|]; [|now left].
    apply IH.
Qed.

Lemma read_effects_column3 it :
  forall acc effects it',
    Forall (fun e => nth_error (split_comma_space (snd e)) 3 = Some (fst e)) acc ->
    read_effects it acc = ret (effects, it') ->
    Forall (fun e => nth_error (split_comma_space (snd e)) 3 = Some (fst e)) effects.
Proof.
  induction it as [|l it IH]; intros acc effects it' Hacc; cbn [read_effects].
  - intros H; inversion H; subst; exact Hacc.
  - destruct (String.eqb l "").
    + intros H; inversion H; subst; exact Hacc.
    + destruct (nth_error (split_comma_space l) 3) as [p|] eqn:E;
        [|intros H; discriminate H].
      apply IH. apply Forall_app; split; [exact Hacc|].
      constructor; [exact E|constructor].
Qed.

(** The parse of a stream whose two headers and separator are in place. *)
Lemma scan_lines_framed fs rest :
  Forall finding_line fs ->
  scan_lines (CARGO_SCAN_CSV_HEADER :: fs ++ "" :: CARGO_SCAN_METADATA_HEADER :: rest)
  = match rest with
    | [] => raise StopIteration
    | [metadata] => ret (map effect_of fs, metadata)
    | _ :: _ :: _ => raise (AssertionError msg_extra)
    end.
Proof.
  intros Hfs. unfold scan_lines. simpl next. cbn [bind ret].
  rewrite String.eqb_refl. cbn [assert bind ret].
  rewrite (read_effects_findings fs Hfs). cbn [bind ret app next].
  rewrite String.eqb_refl. cbn [assert bind ret].
  destruct rest as [|m [|x extra]]; reflexivity.
Qed.

Lemma count_nonblank_findings fs :
  Forall finding_line fs ->
  length (filter (fun l => negb (blank l)) (fs ++ [""])) = length fs.
Proof.
  induction 1 as [|f fs [Hne _] _ IH]; simpl; [reflexivity|].
  unfold blank at 1. apply String.eqb_neq in Hne. rewrite Hne. simpl.
  now rewrite IH.
Qed.

Lemma metadata_header_not_blank : CARGO_SCAN_METADATA_HEADER <> "".
Proof. discriminate. Qed.

Lemma scan_lines_missing_separator lines :
  missing_separator lines ->
  scan_lines lines = raise StopIteration \/ scan_lines lines = raise IndexError.
Proof.
  intros (fs & metadata & -> & Hfs).
  unfold scan_lines. cbn [next bind ret].
  rewrite String.eqb_refl. cbn [assert bind ret].
  destruct (String.eqb_spec metadata "") as [->|Hm].
  - (* the blank metadata row ends the loop, nothing follows it *)
    assert (Hall : Forall (fun l => l <> "") (fs ++ [CARGO_SCAN_METADATA_HEADER])).
    { apply Forall_app; split; [exact Hfs|].
      constructor; [apply metadata_header_not_blank|constructor]. }
    replace (fs ++ [CARGO_SCAN_METADATA_HEADER; ""])
      with ((fs ++ [CARGO_SCAN_METADATA_HEADER]) ++ [""])
      by now rewrite <- app_assoc.
    destruct (read_effects_no_blank _ Hall [""] []) as [->|[acc ->]].
    + now right.
    + now left.
  - (* the loop runs to the end of the stream *)
    assert (Hall : Forall (fun l => l <> "")
                          (fs ++ [CARGO_SCAN_METADATA_HEADER; metadata])).
    { apply Forall_app; split; [exact Hfs|].
      constructor; [apply metadata_header_not_blank|].
      constructor; [exact Hm|constructor]. }
    destruct (read_effects_no_blank _ Hall [] []) as [H|[acc H]];
      rewrite app_nil_r in H; rewrite H.
    + now right.
    + now left.
Qed.

Lemma scan_lines_trailing_line lines :
  trailing_line lines -> scan_lines lines = raise (AssertionError msg_extra).
Proof.
  intros (fs & metadata & x & extra & -> & Hfs & _).
  now rewrite (scan_lines_framed fs (metadata :: x :: extra) Hfs).
Qed.

(** C3: on a well-formed stream (finding header, finding records, a blank
    line, metadata header, one metadata row, end of stream) [scan_crate]
    returns one finding per non-blank line between the two headers, in stream
    order, and the metadata row. *)
Theorem scan_crate_well_formed (proc_stdout : string) fs metadata :
  stdout_lines proc_stdout =
    CARGO_SCAN_CSV_HEADER :: fs ++ "" :: CARGO_SCAN_METADATA_HEADER :: [metadata] ->
  Forall record_line fs ->
  exists effects,
    scan_crate proc_stdout = ret (effects, metadata) /\
    length effects = length (filter (fun l => negb (blank l)) (fs ++ [""])) /\
    map snd effects = fs.
Proof.
  intros Hlines Hfs.
  assert (Hfl : Forall finding_line fs).
  { eapply Forall_impl; [|exact Hfs]. apply record_line_finding_line. }
  exists (map effect_of fs). unfold scan_crate. rewrite Hlines.
  rewrite (scan_lines_framed fs [metadata] Hfl).
  split; [reflexivity|]. split.
  - rewrite (count_nonblank_findings fs Hfl). apply length_map.
  - rewrite map_map. simpl. apply map_id.
Qed.

Lemma scan_crate_well_formed_witness :
  exists effects,
    scan_crate scenario_stream = ret (effects, scenario_metadata) /\
    length effects
    = length (filter (fun l => negb (blank l)) ([scenario_row] ++ [""])) /\
    map snd effects = [scenario_row].
Proof.
  apply (scan_crate_well_formed scenario_stream [scenario_row] scenario_metadata).
  - reflexivity.
  - constructor; [|constructor].
    split; [discriminate|reflexivity].
Defined.

(** C4: the pattern-kind of every finding [scan_crate] returns is the field
    at index 3, counting from 0, of the line split at [", "] (the fourth
    column, [effect] in the header); the scenario stream yields the one
    finding with pattern-kind [FileRead], and its metadata row. *)
Theorem scan_crate_pattern_kind :
  (forall proc_stdout effects metadata,
      scan_crate proc_stdout = ret (effects, metadata) ->
      Forall (fun e => nth_error (split_comma_space (snd e)) 3 = Some (fst e))
             effects) /\
  nth_error (split_comma_space CARGO_SCAN_CSV_HEADER) 3 = Some "effect" /\
  scan_crate scenario_stream
  = ret ([("FileRead", "my_crate, f, g, FileRead, ./, a.rs, 10, 4")],
         scenario_metadata).
Proof.
  split; [|split; reflexivity].
  intros out effects metadata. unfold scan_crate, scan_lines.
  destruct (next (stdout_lines out)) as [e|[hdr it]]; [discriminate|].
  cbn [bind]. destruct (assert _ _) as [e|[]]; [discriminate|]. cbn [bind].
  destruct (read_effects it []) as [e|[effs it1]] eqn:E; [discriminate|].
  cbn [bind]. destruct (next it1) as [e|[hdr2 it2]]; [discriminate|].
  cbn [bind]. destruct (assert _ _) as [e|[]]; [discriminate|]. cbn [bind].
  destruct (next it2) as [e|[m it3]]; [discriminate|]. cbn [bind].
  destruct it3; cbn; [|discriminate].
  intros H; inversion H; subst.
  eapply read_effects_column3; [|exact E]. constructor.
Qed.

Lemma scan_crate_pattern_kind_witness :
  Forall (fun e => nth_error (split_comma_space (snd e)) 3 = Some (fst e))
         [("FileRead", scenario_row)].
Proof.
  apply (proj1 scan_crate_pattern_kind scenario_stream _ scenario_metadata).
  reflexivity.
Defined.







(** ** The aggregator *)

Lemma fold_left_add_shift xs : forall a, fold_left Z.add xs a = a + sum xs.
Proof.
  unfold sum. induction xs as [|x xs IH]; intros a; simpl; [lia|].
  rewrite (IH (a + x)), (IH x). lia.
Qed.

Lemma sum_cons x xs : sum (x :: xs) = x + sum xs.
Proof. unfold sum at 1. simpl. apply fold_left_add_shift. Qed.

Lemma dict_get_set_same {V} (d : dict V) k v : dict_get (dict_set d k v) k = Some v.
Proof.
  induction d as [|[k' v'] d IH]; simpl.
  - now rewrite String.eqb_refl.
  - destruct (String.eqb k' k) eqn:E; simpl; now rewrite E.
Qed.

Lemma dict_get_set_other {V} (d : dict V) k v k' :
  k' <> k -> dict_get (dict_set d k v) k' = dict_get d k'.
Proof.
  intros Hne. induction d as [|[k0 v0] d IH]; simpl.
  - destruct (String.eqb_spec k k'); [congruence|reflexivity].
  - destruct (String.eqb_spec k0 k) as [->|Hk]; simpl.
    + destruct (String.eqb_spec k k'); [congruence|reflexivity].
    + now rewrite IH.
Qed.

Lemma sum_values_set (d : dict Z) k v :
  sum (values (dict_set d k v)) = sum (values d) - count_of d k + v.
Proof.
  unfold count_of, values. induction d as [|[k' v'] d IH]; simpl.
  - rewrite sum_cons. unfold sum; simpl. lia.
  - destruct (String.eqb k' k) eqn:E; simpl; rewrite !sum_cons.
    + lia.
    + rewrite IH. lia.
Qed.

Lemma setdefault_get (d : dict Z) k :
  dict_get (setdefault d k 0) k = Some (count_of d k).
Proof.
  unfold setdefault, count_of. destruct (dict_get d k) eqn:E.
  - exact E.
  - apply dict_get_set_same.
Qed.

Lemma setdefault_get_other (d : dict Z) k k' :
  k' <> k -> dict_get (setdefault d k 0) k' = dict_get d k'.
Proof.
  intros Hne. unfold setdefault. destruct (dict_get d k); [reflexivity|].
  now apply dict_get_set_other.
Qed.

Lemma sum_values_setdefault (d : dict Z) k :
  sum (values (setdefault d k 0)) = sum (values d).
Proof.
  unfold setdefault. destruct (dict_get d k) eqn:E; [reflexivity|].
  rewrite sum_values_set. unfold count_of. rewrite E. lia.
Qed.

Lemma dict_comprehension_from {V} (cs : list string) (v : V) :
  forall d,
    Forall (fun kv => snd kv = v) d ->
    Forall (fun kv => snd kv = v) (fold_left (fun d c => dict_set d c v) cs d).
Proof.
  induction cs as [|c cs IH]; intros d Hd; simpl; [exact Hd|].
  apply IH. clear IH. induction Hd as [|[k' v'] d Hk Hd IHd]; simpl.
  - constructor; [reflexivity|constructor].
  - destruct (String.eqb k' c); constructor; auto.
Qed.

Lemma sum_values_zero (d : dict Z) :
  Forall (fun kv => snd kv = 0) d -> sum (values d) = 0.
Proof.
  unfold values. induction 1 as [|[k v] d Hk _ IH]; [reflexivity|].
  simpl in *. rewrite sum_cons. lia.
Qed.

Lemma sum_values_comprehension cs : sum (values (dict_comprehension cs 0)) = 0.
Proof.
  apply sum_values_zero, dict_comprehension_from. constructor.
Qed.

Lemma dict_get_fold_set {V} (cs : list string) (v : V) c :
  forall d,
    dict_get d c = Some v \/ In c cs ->
    dict_get (fold_left (fun d c => dict_set d c v) cs d) c = Some v.
Proof.
  induction cs as [|c' cs IH]; intros d H; simpl.
  - destruct H as [H|[]]; exact H.
  - apply IH. destruct (String.eqb_spec c c') as [->|Hne].
    + left. apply dict_get_set_same.
    + destruct H as [H|[H|H]]; [left|congruence|now right].
      now rewrite dict_get_set_other.
Qed.

(** Every listed crate has a bucket from the start. *)
Lemma dict_get_comprehension {V} (cs : list string) (v : V) c :
  In c cs -> dict_get (dict_comprehension cs v) c = Some v.
Proof. intros H. apply dict_get_fold_set. now right. Qed.

(** [setdefault] makes the second lookup of the iteration succeed: only
    the crate lookup can raise. *)
Lemma fold_effect_eq crate s eff_pat eff_csv :
  fold_effect crate s (eff_pat, eff_csv)
  = match dict_get (crate_summary s) crate with
    | None =>
        ({| results := results s ++ [eff_csv];
            crate_summary := crate_summary s;
            pattern_summary := pattern_summary s;
            metadata_summary := metadata_summary s |}, Raised (KeyError crate))
    | Some n =>
        ({| results := results s ++ [eff_csv];
            crate_summary := dict_set (crate_summary s) crate (n + 1);
            pattern_summary :=
              dict_set (setdefault (pattern_summary s) eff_pat 0) eff_pat
                       (count_of (pattern_summary s) eff_pat + 1);
            metadata_summary := metadata_summary s |}, Completed)
    end.
Proof.
  unfold fold_effect.
  cbn [results crate_summary pattern_summary metadata_summary].
  unfold dict_getitem. rewrite setdefault_get.
  destruct (dict_get (crate_summary s) crate); reflexivity.
Qed.

Lemma fold_effect_consistent crate s e :
  consistent s -> consistent (fst (fold_effect crate s e)).
Proof.
  unfold consistent. destruct e as [eff_pat eff_csv]. intros H.
  rewrite fold_effect_eq.
  destruct (dict_get (crate_summary s) crate) as [n|] eqn:En;
    cbn [fst crate_summary pattern_summary]; [|exact H].
  rewrite !sum_values_set, sum_values_setdefault.
  unfold count_of at 1. rewrite En.
  unfold count_of at 1. rewrite setdefault_get. lia.
Qed.

Lemma run_state_consistent s : run_state s -> consistent s.
Proof.
  induction 1 as [crates|crate s e _ IH|crate metadata s _ IH].
  - unfold consistent, init_summaries; cbn [crate_summary pattern_summary].
    now rewrite sum_values_comprehension.
  - now apply fold_effect_consistent.
  - exact IH.
Qed.

(** One finding adds one to the bucket of its crate and one to the bucket of
    its pattern, which starts at 0 if it is new; no other bucket moves. *)
Lemma fold_effect_buckets crate s eff_pat eff_csv n :
  dict_get (crate_summary s) crate = Some n ->
  exists s',
    fold_effect crate s (eff_pat, eff_csv) = (s', Completed) /\
    results s' = results s ++ [eff_csv] /\
    dict_get (crate_summary s') crate = Some (n + 1) /\
    (forall c, c <> crate ->
               dict_get (crate_summary s') c = dict_get (crate_summary s) c) /\
    dict_get (pattern_summary s') eff_pat
    = Some (count_of (pattern_summary s) eff_pat + 1) /\
    (forall p, p <> eff_pat ->
               dict_get (pattern_summary s') p = dict_get (pattern_summary s) p).
Proof.
  intros Hn. rewrite fold_effect_eq, Hn.
  eexists. split; [reflexivity|].
  cbn [results crate_summary pattern_summary].
  split; [reflexivity|]. split; [apply dict_get_set_same|].
  split; [intros c Hc; now apply dict_get_set_other|].
  split; [apply dict_get_set_same|].
  intros p Hp. rewrite dict_get_set_other by exact Hp.
  now apply setdefault_get_other.
Qed.

Lemma fold_effects_run_state crate effects :
  forall s, run_state s -> run_state (fst (fold_effects crate s effects)).
Proof.
  induction effects as [|e effects IH]; intros s Hs; cbn [fold_effects fst].
  - exact Hs.
  - assert (H := run_effect crate s e Hs).
    destruct (fold_effect crate s e) as [s' [| |]]; cbn [fst] in *;
      [now apply IH|exact H|exact H].
Qed.

(** With a bucket for the crate the findings loop runs to its end and adds
    the number of findings to that bucket. *)
Lemma fold_effects_completed crate effects :
  forall s n,
    dict_get (crate_summary s) crate = Some n ->
    exists s',
      fold_effects crate s effects = (s', Completed) /\
      results s' = results s ++ map snd effects /\
      dict_get (crate_summary s') crate = Some (n + Z.of_nat (length effects)).
Proof.
  induction effects as [|[eff_pat eff_csv] effects IH]; intros s n Hn.
  - exists s. cbn [fold_effects map length]. rewrite app_nil_r.
    split; [reflexivity|]. split; [reflexivity|].
    rewrite Hn. f_equal. lia.
  - destruct (fold_effect_buckets crate s eff_pat eff_csv n Hn)
      as (s1 & E & Hr & Hc & _).
    destruct (IH s1 (n + 1) Hc) as (s' & E' & Hr' & Hc').
    exists s'. cbn [fold_effects]. rewrite E. split; [exact E'|]. split.
    + rewrite Hr', Hr. cbn [map snd]. now rewrite <- app_assoc.
    + rewrite Hc'. f_equal. cbn [length]. lia.
Qed.

Section MainProperties.

Variable read_text : string -> string.
Variable csv_reader : string -> list (list string).
Variable path_exists : string -> bool.
Variable cargo_download : string -> string -> Z.
Variable cargo_scan : string -> string.

Local Abbreviation scan_one' := (scan_one path_exists cargo_download cargo_scan).
Local Abbreviation scan_all' := (scan_all path_exists cargo_download cargo_scan).
Local Abbreviation main' :=
  (main read_text csv_reader path_exists cargo_download cargo_scan).
Local Abbreviation aborts_crate' :=
  (aborts_crate path_exists cargo_download cargo_scan).

Lemma scan_one_run_state crates_dir test_run s crate :
  run_state s -> run_state (fst (scan_one' crates_dir test_run s crate)).
Proof.
  intros Hs. unfold scan_one.
  destruct (download_crate _ _ _ _ _); [exact Hs|].
  destruct (scan_crate _) as [e|[effects metadata]]; [exact Hs|].
  assert (H := fold_effects_run_state crate effects s Hs).
  destruct (fold_effects crate s effects) as [s' [| |]]; cbn [fst] in *;
    [now apply run_metadata|exact H|exact H].
Qed.

Lemma scan_all_run_state crates_dir test_run crates :
  forall s, run_state s ->
            run_state (fst (scan_all' crates_dir test_run s crates)).
Proof.
  induction crates as [|crate crates IH]; intros s Hs; cbn; [exact Hs|].
  assert (H := scan_one_run_state crates_dir test_run s crate Hs).
  destruct (scan_one' crates_dir test_run s crate) as [s' [| |]];
    cbn [fst] in *; [now apply IH|exact H|exact H].
Qed.

(** With a bucket for the crate, as every crate of the run has, the only
    exception that escapes the loop body is one [scan_crate] raised. *)
Lemma scan_one_outcome crates_dir test_run s crate n :
  dict_get (crate_summary s) crate = Some n ->
  match snd (scan_one' crates_dir test_run s crate) with
  | Completed => True
  | SysExit code => code = 1
  | Raised e => scan_crate (cargo_scan (path_join crates_dir crate)) = raise e
  end.
Proof.
  intros Hn. unfold scan_one.
  destruct (download_crate _ _ _ _ _); [reflexivity|].
  destruct (scan_crate _) as [e|[effects metadata]]; [reflexivity|].
  destruct (fold_effects_completed crate effects s n Hn) as (s' & -> & _).
  exact I.
Qed.

Lemma scan_all_app crates_dir test_run before :
  forall s0 s crates,
    scan_all' crates_dir test_run s0 before = (s, Completed) ->
    scan_all' crates_dir test_run s0 (before ++ crates)
    = scan_all' crates_dir test_run s crates.
Proof.
  induction before as [|c before IH]; intros s0 s crates; cbn.
  - intros H; now inversion H.
  - destruct (scan_one _ _ _ _ _ _ c) as [s1 [| |]]; try discriminate.
    apply IH.
Qed.

Lemma scan_crate_error_aborts crates_dir test_run crate e :
  download_crate path_exists cargo_download crates_dir crate test_run = ret tt ->
  scan_crate (cargo_scan (path_join crates_dir crate)) = raise e ->
  aborts_crate' crates_dir test_run crate e.
Proof.
  intros Hd He.
  assert (Hone : forall s, scan_one' crates_dir test_run s crate = (s, Raised e)).
  { intros s. unfold scan_one. now rewrite Hd, He. }
  split; [exact He|]. split; [exact Hone|].
  intros s0 s before after Hb.
  rewrite (scan_all_app _ _ _ _ _ _ Hb). cbn.
  now rewrite Hone.
Qed.

(** C1: the counts of the pattern summary and of the crate summary add up
    to the same total in the initial summaries, at the end of every
    iteration of the findings loop and when [main] ends, so that the sanity
    check finds nothing to log; each finding adds one to exactly one pattern
    bucket, created at 0 if new, and to exactly one crate bucket. *)
Theorem summaries_agree :
  (forall s, run_state s ->
             sum (values (pattern_summary s)) = sum (values (crate_summary s))) /\
  (forall a s st, main' a = (Some s, st) ->
                  run_state s /\ inconsistent s = false) /\
  (forall crate s eff_pat eff_csv n,
      dict_get (crate_summary s) crate = Some n ->
      exists s',
        fold_effect crate s (eff_pat, eff_csv) = (s', Completed) /\
        dict_get (crate_summary s') crate = Some (n + 1) /\
        (forall c, c <> crate ->
                   dict_get (crate_summary s') c = dict_get (crate_summary s) c) /\
        dict_get (pattern_summary s') eff_pat
        = Some (count_of (pattern_summary s) eff_pat + 1) /\
        (forall p, p <> eff_pat ->
                   dict_get (pattern_summary s') p
                   = dict_get (pattern_summary s) p)).
Proof.
  split; [|split].
  - intros s Hs. symmetry. now apply run_state_consistent.
  - intros a s st. unfold main.
    destruct (select_log_level (verbose a)); [discriminate|].
    destruct (enumerate_crates _ _ a) as [e|[num_crates crates]];
      [discriminate|].
    assert (H := scan_all_run_state
                   (if test_run a then TEST_CRATES_DIR else CRATES_DIR)
                   (test_run a) crates _ (run_init crates)).
    destruct (scan_all _ _ _ _ _ _ _) as [s' st']. cbn [fst] in H.
    intros E; inversion E; subst. split; [exact H|].
    unfold inconsistent. rewrite (run_state_consistent s H).
    now rewrite Z.eqb_refl.
  - intros crate s eff_pat eff_csv n Hn.
    destruct (fold_effect_buckets crate s eff_pat eff_csv n Hn)
      as (s' & H1 & _ & H2 & H3 & H4 & H5).
    exists s'. auto.
Qed.


End MainProperties.

Lemma summaries_agree_witness :
  let s := fst (fold_effect "my_crate" (init_summaries ["my_crate"])
                            ("FileRead", scenario_row)) in
  sum (values (pattern_summary s)) = sum (values (crate_summary s)) /\
  dict_get (pattern_summary s) "FileRead" = Some 1 /\
  dict_get (crate_summary s) "my_crate" = Some 1.
Proof.
  split.
  - apply (proj1 (summaries_agree (fun _ => "") (fun _ => []) always_there
                                  download_succeeds
                                  (one_crate_world scenario_stream))).
    apply run_effect, run_init.
  - destruct (proj2 (proj2 (summaries_agree (fun _ => "") (fun _ => [])
                              always_there download_succeeds
                              (one_crate_world scenario_stream)))
                    "my_crate" (init_summaries ["my_crate"])
                    "FileRead" scenario_row 0 eq_refl)
      as (s' & E & H1 & _ & H2 & _).
    rewrite E. split; [exact H2|exact H1].
Defined.



(** ** The pattern report *)

Lemma fold_left_render xs :
  forall r,
    fold_left (fun result x => (result ++ pattern_line x)%string) xs r
    = (r ++ render_lines xs)%string.
Proof.
  induction xs as [|x xs IH]; intros r; simpl.
  - now rewrite append_nil_r.
  - now rewrite IH, append_assoc.
Qed.

Lemma insert_desc_perm x l : Permutation (insert_desc x l) (x :: l).
Proof.
  induction l as [|y l IH]; simpl; [reflexivity|].
  destruct (snd y <=? snd x); [reflexivity|].
  rewrite IH. apply perm_swap.
Qed.

Lemma insert_desc_sorted x l :
  StronglySorted by_count_desc l -> StronglySorted by_count_desc (insert_desc x l).
Proof.
  induction 1 as [|y l Hs IH Hy]; simpl.
  - constructor; constructor.
  - destruct (Z.leb_spec (snd y) (snd x)) as [Hle|Hlt].
    + constructor; [now constructor|].
      constructor; [exact Hle|].
      eapply Forall_impl; [|exact Hy]. unfold by_count_desc. intros; lia.
    + constructor; [exact IH|].
      apply (Permutation_Forall (Permutation_sym (insert_desc_perm x l))).
      constructor; [unfold by_count_desc; lia|exact Hy].
Qed.

Lemma insert_desc_filter n x l :
  filter (fun y => snd y =? n) (insert_desc x l)
  = filter (fun y => snd y =? n) (x :: l).
Proof.
  induction l as [|y l IH]; [reflexivity|].
  cbn [insert_desc]. destruct (Z.leb_spec (snd y) (snd x)) as [Hle|Hlt];
    [reflexivity|].
  cbn [filter] in *. rewrite IH.
  destruct (Z.eqb_spec (snd x) n) as [Hx|Hx]; [|reflexivity].
  destruct (Z.eqb_spec (snd y) n) as [Hy|Hy]; [lia|reflexivity].
Qed.

Lemma concat_lines {A} (f : A -> string) xs :
  String.concat "" (map f xs)
  = fold_right (fun x r => (f x ++ r)%string) "" xs.
Proof.
  induction xs as [|x xs IH]; [reflexivity|].
  cbn [map fold_right String.concat]. rewrite <- IH.
  destruct (map f xs) as [|y ys].
  - symmetry. apply append_nil_r.
  - reflexivity.
Qed.

Lemma sort_summary_dict_order (summary : dict Z) :
  Permutation (sort_summary_dict summary) (items summary) /\
  StronglySorted by_count_desc (sort_summary_dict summary) /\
  forall n,
    filter (fun x => snd x =? n) (sort_summary_dict summary)
    = filter (fun x => snd x =? n) (items summary).
Proof.
  unfold sort_summary_dict, items.
  induction summary as [|x d (IHp & IHs & IHf)]; cbn [fold_right].
  - repeat split; constructor.
  - split; [|split].
    + rewrite insert_desc_perm. now constructor.
    + now apply insert_desc_sorted.
    + intros n. rewrite insert_desc_filter. cbn [filter]. now rewrite IHf.
Qed.

(** C8: the pattern report is its two banner lines followed by one line
    [pattern: count] per pattern, the count in decimal, the patterns in
    descending order of count, and patterns with the same count in the order
    they entered the summary. *)
Theorem pattern_report_order (summary : dict Z) :
  let newline := String "010" "" in
  let pattern_sorted := sort_summary_dict summary in
  make_pattern_summary summary
  = ("===== Patterns =====" ++ newline
     ++ "Total instances of each effect pattern:" ++ newline
     ++ String.concat ""
          (map (fun x => fst x ++ ": "
                         ++ NilZero.string_of_int (Z.to_int (snd x))
                         ++ newline)
               pattern_sorted))%string /\
  Permutation pattern_sorted (items summary) /\
  StronglySorted by_count_desc pattern_sorted /\
  forall n,
    filter (fun x => snd x =? n) pattern_sorted
    = filter (fun x => snd x =? n) (items summary).
Proof.
  cbv zeta. split; [|apply sort_summary_dict_order].
  unfold make_pattern_summary. rewrite fold_left_render.
  rewrite concat_lines. reflexivity.
Qed.

Example pattern_report_ties :
  make_pattern_summary [("FileRead", 1); ("Unsafe", 2); ("NetSend", 1); ("Exec", 2)]
  = String.concat (String "010" "")
      ["===== Patterns ====="; "Total instances of each effect pattern:";
       "Unsafe: 2"; "Exec: 2"; "FileRead: 1"; "NetSend: 1"; ""].
Proof. reflexivity. Qed.

(** ** The package list *)

Lemma no_eol_no_newline l : no_eol l = true -> no_newline l = true.
Proof.
  induction l as [|c l IH]; [reflexivity|]. cbn [no_eol no_newline].
  intros H. apply andb_prop in H as [H Hl]. apply andb_prop in H as [Hnl _].
  now rewrite Hnl, IH.
Qed.

Lemma universal_newlines_line l rest :
  no_eol l = true ->
  universal_newlines (l ++ String nl rest)
  = (l ++ String nl (universal_newlines rest))%string.
Proof.
  induction l as [|c l IH]; intros H.
  - reflexivity.
  - cbn [no_eol] in H. apply andb_prop in H as [H Hl].
    apply andb_prop in H as [_ Hcr]. apply negb_true_iff in Hcr.
    cbn [append universal_newlines]. rewrite Hcr. now rewrite IH.
Qed.

Lemma text_readlines_unlines ls :
  Forall (fun l => no_eol l = true) ls ->
  text_readlines (unlines ls) = map line ls.
Proof.
  unfold text_readlines. induction 1 as [|l ls Hl _ IH]; [reflexivity|].
  cbn [unlines fold_right map]. fold (unlines ls).
  rewrite universal_newlines_line by exact Hl.
  rewrite readlines_line by now apply no_eol_no_newline.
  now rewrite IH.
Qed.

Section ListFileProperties.

Variable read_text : string -> string.
Variable csv_reader : string -> list (list string).

Lemma crate_names_from_rest rows :
  Forall (fun row => row <> []) rows ->
  forall i crates,
    0 < i ->
    crate_names_from i rows crates = ret (crates ++ map (hd "") rows).
Proof.
  induction 1 as [|row rows Hrow _ IH]; intros i crates Hi;
    cbn [crate_names_from map].
  - now rewrite app_nil_r.
  - destruct (Z.gtb_spec i 0) as [_|]; [|lia].
    destruct row as [|c row]; [contradiction|]. cbn [nth_error hd].
    rewrite IH by lia. now rewrite <- app_assoc.
Qed.

(** C9: for a list file made of a header row and data rows, each on a line
    of its own, the count [main] reports is the number of data rows, the
    number of lines less one for the header: 3 for three data rows. *)
Theorem count_lines_header cratefile hdr rows :
  read_text cratefile = unlines (hdr :: rows) ->
  Forall (fun l => no_eol l = true) (hdr :: rows) ->
  count_lines read_text cratefile true = Z.of_nat (length rows) /\
  count_lines read_text cratefile true
  = Z.of_nat (length (text_readlines (read_text cratefile))) - 1 /\
  (length rows = 3%nat ->
   count_lines read_text cratefile true = 3 /\
   forall a crates num_crates,
     arg_target a = Infile cratefile ->
     enumerate_crates read_text csv_reader a = ret (num_crates, crates) ->
     num_crates = 3 /\
     crates_infostr a num_crates = ("3 crates from " ++ cratefile)%string).
Proof.
  intros Htext Hrows.
  assert (Hc : count_lines read_text cratefile true = Z.of_nat (length rows)).
  { unfold count_lines. rewrite Htext, (text_readlines_unlines _ Hrows).
    rewrite length_map. cbn [length]. lia. }
  split; [exact Hc|]. split; [reflexivity|].
  intros H3. rewrite H3 in Hc. split; [exact Hc|].
  intros a crates num_crates Ha. unfold enumerate_crates, crates_infostr.
  rewrite Ha. destruct (get_crate_names csv_reader cratefile); [discriminate|].
  cbn [bind ret]. intros E. injection E as <- _.
  unfold count_lines in Hc. rewrite Hc. split; reflexivity.
Qed.

(** C10: whatever the first row of the list file holds, [get_crate_names]
    skips it and returns the first column of the rows after it; a list file
    without a header row loses its first package. *)
Theorem get_crate_names_skips_first cratefile first rest :
  csv_reader cratefile = first :: rest ->
  Forall (fun row => row <> []) rest ->
  get_crate_names csv_reader cratefile = ret (map (hd "") rest).
Proof.
  intros Hrows Hrest. unfold get_crate_names. rewrite Hrows.
  cbn [crate_names_from]. destruct (Z.gtb_spec 0 0) as [|_]; [lia|].
  now rewrite (crate_names_from_rest rest Hrest (0 + 1) []) by lia.
Qed.

End ListFileProperties.

Lemma count_lines_header_witness :
  count_lines (fun _ => list_file_text) "crates.csv" true = 3.
Proof.
  refine (proj1 (proj2 (proj2 (count_lines_header
                                 (fun _ => list_file_text) (fun _ => [])
                                 "crates.csv" "name,downloads"
                                 ["serde,100"; "rand,90"; "libc,80"]
                                 eq_refl _)) eq_refl)).
  repeat constructor.
Defined.

Lemma get_crate_names_skips_first_witness :
  get_crate_names (fun _ => [["serde"; "100"]; ["rand"; "90"]; ["libc"; "80"]])
                  "crates.csv"
  = ret ["rand"; "libc"].
Proof.
  apply (get_crate_names_skips_first
           (fun _ => [["serde"; "100"]; ["rand"; "90"]; ["libc"; "80"]])
           "crates.csv" ["serde"; "100"] [["rand"; "90"]; ["libc"; "80"]]).
  - reflexivity.
  - repeat constructor; discriminate.
Defined.

(** ** Verbosity *)

Lemma select_log_level_accepts verbose :
  0 <= verbose <= 4 -> exists level, select_log_level verbose = inr level.
Proof.
  intros H.
  assert (E : verbose = 0 \/ verbose = 1 \/ verbose = 2 \/ verbose = 3
              \/ verbose = 4) by lia.
  destruct E as [->|[->|[->|[->| ->]]]]; eexists; reflexivity.
Qed.

Lemma select_log_level_rejects verbose :
  5 < verbose -> select_log_level verbose = inl (SysExit 1).
Proof.
  intros H. unfold select_log_level.
  destruct (Z.gtb_spec verbose 5); [reflexivity|lia].
Qed.

Lemma select_log_level_five : select_log_level 5 = inl (Raised IndexError).
Proof. reflexivity. Qed.

(** C6: the verbosity is a count of [-v] flags, so it is not negative.  The
    values 0 to 4 are accepted, each with its log level; every larger value
    ends [main] there, before anything is read or scanned, and the process
    exits with status 1: above 5 by [sys.exit(1)], at 5 by the [IndexError]
    of the lookup in the table of log levels, which nothing catches. *)
Theorem verbosity_exit_status read_text csv_reader path_exists cargo_download
        cargo_scan (a : arguments) :
  0 <= verbose a ->
  (verbose a <= 4 ->
   select_log_level (verbose a)
   = inr (nth (Z.to_nat (verbose a)) [INFO; ERROR; WARNING; INFO; DEBUG] INFO)) /\
  (4 < verbose a ->
   exists st,
     main read_text csv_reader path_exists cargo_download cargo_scan a
     = (None, st) /\
     exit_status st = 1 /\
     st = if verbose a =? 5 then Raised IndexError else SysExit 1).
Proof.
  intros H0. split; intros H.
  - assert (E : verbose a = 0 \/ verbose a = 1 \/ verbose a = 2
                \/ verbose a = 3 \/ verbose a = 4) by lia.
    destruct E as [->|[->|[->|[->| ->]]]]; reflexivity.
  - unfold main. destruct (Z.eqb_spec (verbose a) 5) as [->|Hne].
    + rewrite select_log_level_five. eexists. repeat split.
    + rewrite select_log_level_rejects by lia. eexists. repeat split.
Qed.

Lemma verbosity_exit_status_witness :
  (exists st,
      main list_text list_reader always_there download_succeeds
           (one_crate_world scenario_stream)
           (mkArguments (Crate "my_crate") false None false 5)
      = (None, st) /\ exit_status st = 1 /\ st = Raised IndexError) /\
  (exists st,
      main list_text list_reader always_there download_succeeds
           (one_crate_world scenario_stream)
           (mkArguments (Crate "my_crate") false None false 7)
      = (None, st) /\ exit_status st = 1 /\ st = SysExit 1) /\
  select_log_level 4 = inr DEBUG.
Proof.
  split; [|split].
  - apply (proj2 (verbosity_exit_status
                    list_text list_reader always_there download_succeeds
                    (one_crate_world scenario_stream)
                    (mkArguments (Crate "my_crate") false None false 5)
                    ltac:(cbn; lia))).
    cbn. lia.
  - apply (proj2 (verbosity_exit_status
                    list_text list_reader always_there download_succeeds
                    (one_crate_world scenario_stream)
                    (mkArguments (Crate "my_crate") false None false 7)
                    ltac:(cbn; lia))).
    cbn. lia.
  - apply (proj1 (verbosity_exit_status
                    list_text list_reader always_there download_succeeds
                    (one_crate_world scenario_stream)
                    (mkArguments (Crate "my_crate") false None false 4)
                    ltac:(cbn; lia))).
    cbn. lia.
Defined.

(** * Further properties *)

(** ** What [scan_crate] accepts and how it fails *)

Lemma nth_error_effect_of l p :
  nth_error (split_comma_space l) 3 = Some p -> effect_of l = (p, l).
Proof.
  intros H. unfold effect_of. f_equal.
  now apply nth_error_nth.
Qed.

Lemma read_effects_inv it :
  forall acc effects it',
    read_effects it acc = ret (effects, it') ->
    exists fs,
      effects = acc ++ map effect_of fs /\
      Forall finding_line fs /\
      (it = fs ++ "" :: it' \/ (it = fs /\ it' = [])).
Proof.
  induction it as [|l it IH]; intros acc effects it'; cbn [read_effects].
  - intros H. injection H as <- <-. exists []. cbn. rewrite app_nil_r. auto.
  - destruct (String.eqb_spec l "") as [->|Hne].
    + intros H. injection H as <- <-. exists []. cbn. rewrite app_nil_r. auto.
    + destruct (nth_error (split_comma_space l) 3) as [p|] eqn:E;
        [|discriminate].
      intros H. destruct (IH _ _ _ H) as (fs & -> & Hfs & Hit).
      exists (l :: fs). split; [|split].
      * cbn [map]. rewrite (nth_error_effect_of l p E).
        now rewrite <- app_assoc.
      * constructor; [|exact Hfs]. split; [exact Hne|].
        assert (Hlt : (3 < length (split_comma_space l))%nat)
          by (apply nth_error_Some; congruence).
        lia.
      * destruct Hit as [->|[-> ->]]; [left|right]; auto.
Qed.

Lemma scan_crate_shape_aux (proc_stdout : string) effects metadata :
  scan_crate proc_stdout = ret (effects, metadata) ->
  stdout_lines proc_stdout
  = CARGO_SCAN_CSV_HEADER :: map snd effects
      ++ "" :: CARGO_SCAN_METADATA_HEADER :: [metadata] /\
  effects = map effect_of (map snd effects) /\
  Forall finding_line (map snd effects).
Proof.
  unfold scan_crate, scan_lines.
  destruct (stdout_lines proc_stdout) as [|hdr it]; [discriminate|].
  cbn [next bind ret].
  destruct (String.eqb_spec hdr CARGO_SCAN_CSV_HEADER) as [->|];
    [|discriminate].
  cbn [assert bind ret].
  destruct (read_effects it []) as [e|[effs it1]] eqn:E; [discriminate|].
  destruct (read_effects_inv _ _ _ _ E) as (fs & Heffs & Hfs & Hit).
  cbn [app] in Heffs. subst effs. cbn [bind].
  destruct it1 as [|hdr2 it2]; [discriminate|]. cbn [next bind ret].
  destruct (String.eqb_spec hdr2 CARGO_SCAN_METADATA_HEADER) as [->|];
    [|discriminate].
  cbn [assert bind ret].
  destruct it2 as [|m [|x it3]]; cbn; try discriminate.
  intros H. injection H as <- <-.
  assert (Hsnd : map snd (map effect_of fs) = fs).
  { rewrite map_map. cbn. apply map_id. }
  rewrite Hsnd. destruct Hit as [->|[_ Hnil]]; [|discriminate].
  auto.
Qed.

(** X1: [scan_crate] returns findings only for a stream of exactly the
    protocol's shape: the finding header, the lines of the findings it
    returns, a blank line, the metadata header, the metadata row it returns,
    and nothing else. *)
Theorem scan_crate_success_shape (proc_stdout : string) effects metadata :
  scan_crate proc_stdout = ret (effects, metadata) ->
  stdout_lines proc_stdout
  = CARGO_SCAN_CSV_HEADER :: map snd effects
      ++ "" :: CARGO_SCAN_METADATA_HEADER :: [metadata] /\
  effects = map effect_of (map snd effects) /\
  Forall finding_line (map snd effects).
Proof. apply scan_crate_shape_aux. Qed.

Lemma scan_crate_success_shape_witness :
  stdout_lines scenario_stream
  = CARGO_SCAN_CSV_HEADER :: [scenario_row]
      ++ "" :: CARGO_SCAN_METADATA_HEADER :: [scenario_metadata].
Proof.
  apply (proj1 (scan_crate_success_shape
                  scenario_stream [("FileRead", scenario_row)]
                  scenario_metadata eq_refl)).
Defined.

(** On a stream of text the exceptions are [StopIteration], [IndexError]
    and the three assertions. *)
Lemma scan_crate_text_exceptions (proc_stdout : string) e :
  scan_crate proc_stdout = raise e ->
  e = StopIteration \/ e = IndexError \/
  (exists hdr, hdr <> CARGO_SCAN_CSV_HEADER /\
               e = AssertionError (msg_header hdr)) \/
  (exists hdr, hdr <> CARGO_SCAN_METADATA_HEADER /\
               e = AssertionError (msg_metadata_header hdr)) \/
  e = AssertionError msg_extra.
Proof.
  unfold scan_crate, scan_lines.
  destruct (stdout_lines proc_stdout) as [|hdr it]; cbn [next bind ret raise].
  { intros H. injection H as <-. auto. }
  destruct (String.eqb_spec hdr CARGO_SCAN_CSV_HEADER) as [->|Hne];
    cbn [assert bind ret raise].
  2:{ intros H. injection H as <-. right. right. left. eauto. }
  destruct (read_effects it []) as [e1|[effs it1]] eqn:E; cbn [bind].
  { intros H. injection H as <-. clear -E. revert E. generalize (@nil effect).
    induction it as [|l it IH]; intros acc; cbn [read_effects].
    - discriminate.
    - destruct (String.eqb l ""); [discriminate|].
      destruct (nth_error _ 3); [apply IH|].
      intros H. injection H as <-. auto. }
  destruct it1 as [|hdr2 it2]; cbn [next bind ret raise].
  { intros H. injection H as <-. auto. }
  destruct (String.eqb_spec hdr2 CARGO_SCAN_METADATA_HEADER) as [->|Hne];
    cbn [assert bind ret raise].
  2:{ intros H. injection H as <-. right. right. right. left. eauto. }
  destruct it2 as [|m [|x it3]]; cbn.
  - intros H. injection H as <-. auto.
  - discriminate.
  - intros H. injection H as <-. auto 6.
Qed.

(** *** Streams of any bytes *)

Lemma read_effects_decoded_raises it :
  forall acc e,
    read_effects_decoded it acc = raise e ->
    e = IndexError \/
    (e = UnicodeDecodeError /\
     exists x, In x it /\ utf8_valid (strip x) = false).
Proof.
  induction it as [|x it IH]; intros acc e; cbn [read_effects_decoded].
  - discriminate.
  - unfold decode_utf8. destruct (utf8_valid (strip x)) eqn:V.
    + cbn [ret]. destruct (String.eqb (strip x) ""); [discriminate|].
      destruct (nth_error _ 3).
      * intros H. destruct (IH _ _ H) as [->|(-> & y & Hy & Vy)]; [now left|].
        right. split; [reflexivity|]. exists y. split; [now right|exact Vy].
      * intros H. injection H as <-. now left.
    + intros H. injection H as <-. right. split; [reflexivity|].
      exists x. split; [now left|exact V].
Qed.

Lemma read_effects_decoded_rest it :
  forall acc effects rest,
    read_effects_decoded it acc = ret (effects, rest) -> incl rest it.
Proof.
  induction it as [|x it IH]; intros acc effects rest;
    cbn [read_effects_decoded].
  - intros H. injection H as <- <-. apply incl_refl.
  - unfold decode_utf8. destruct (utf8_valid (strip x)); [|discriminate].
    cbn [ret]. destruct (String.eqb (strip x) "").
    + intros H. injection H as <- <-. apply incl_tl, incl_refl.
    + destruct (nth_error _ 3); [|discriminate].
      intros H. apply incl_tl. exact (IH _ _ _ H).
Qed.

Lemma scan_lines_decoded_exceptions (it : list string) e :
  scan_lines_decoded it = raise e ->
  e = StopIteration \/ e = IndexError \/
  (e = UnicodeDecodeError /\
   exists x, In x it /\ utf8_valid (strip x) = false) \/
  (exists hdr, hdr <> CARGO_SCAN_CSV_HEADER /\
               e = AssertionError (msg_header hdr)) \/
  (exists hdr, hdr <> CARGO_SCAN_METADATA_HEADER /\
               e = AssertionError (msg_metadata_header hdr)) \/
  e = AssertionError msg_extra.
Proof.
  unfold scan_lines_decoded.
  destruct it as [|x it]; cbn [next_decoded bind ret raise].
  { intros H. injection H as <-. auto. }
  unfold decode_utf8 at 1. destruct (utf8_valid (strip x)) eqn:Vx;
    cbn [bind ret raise].
  2:{ intros H. injection H as <-. right. right. left.
      split; [reflexivity|]. exists x. split; [now left|exact Vx]. }
  destruct (String.eqb_spec (strip x) CARGO_SCAN_CSV_HEADER) as [Hx|Hne];
    cbn [assert bind ret raise].
  2:{ intros H. injection H as <-. right. right. right. left. eauto. }
  destruct (read_effects_decoded it []) as [e1|[effs it1]] eqn:E; cbn [bind].
  { intros H. injection H as <-.
    destruct (read_effects_decoded_raises _ _ _ E) as [->|(-> & y & Hy & Vy)];
      [auto|].
    right. right. left. split; [reflexivity|].
    exists y. split; [now right|exact Vy]. }
  apply read_effects_decoded_rest in E.
  destruct it1 as [|h it2]; cbn [next_decoded bind ret raise].
  { intros H. injection H as <-. auto. }
  unfold decode_utf8 at 1. destruct (utf8_valid (strip h)) eqn:Vh;
    cbn [bind ret raise].
  2:{ intros H. injection H as <-. right. right. left.
      split; [reflexivity|]. exists h. split; [|exact Vh].
      right. apply E. now left. }
  destruct (String.eqb_spec (strip h) CARGO_SCAN_METADATA_HEADER) as [Hh|Hne];
    cbn [assert bind ret raise].
  2:{ intros H. injection H as <-. right. right. right. right. left. eauto. }
  destruct it2 as [|m it3]; cbn [next_decoded bind ret raise].
  { intros H. injection H as <-. auto. }
  unfold decode_utf8 at 1. destruct (utf8_valid (strip m)) eqn:Vm;
    cbn [bind ret raise].
  2:{ intros H. injection H as <-. right. right. left.
      split; [reflexivity|]. exists m. split; [|exact Vm].
      right. apply E. right. now left. }
  destruct it3 as [|y it4]; cbn [next_decoded bind ret raise].
  { discriminate. }
  unfold decode_utf8. destruct (utf8_valid (strip y)) eqn:Vy;
    cbn [assert bind ret raise].
  - intros H. injection H as <-. auto 7.
  - intros H. injection H as <-. right. right. left.
    split; [reflexivity|]. exists y. split; [|exact Vy].
    right. apply E. right. right. now left.
Qed.



(** A line is decoded when it is read: after a header that fails its
    assertion the bytes that follow are not looked at. *)
Example scan_crate_bytes_lazy :
  scan_crate_bytes undecodable_stream = raise UnicodeDecodeError /\
  scan_crate_bytes undecodable_after_bad_header
  = raise (AssertionError (msg_header "crate, fn_decl")).
Proof. split; vm_compute; reflexivity. Qed.

Lemma forallb_cons_true {A} (f : A -> bool) x l :
  forallb f (x :: l) = true -> f x = true /\ forallb f l = true.
Proof. cbn [forallb]. now intros H%andb_prop. Qed.

Lemma read_effects_decoded_valid it :
  forall acc,
    forallb utf8_valid (map strip it) = true ->
    match read_effects_decoded it acc with
    | inl e => read_effects (map strip it) acc = inl e
    | inr (effects, rest) =>
        read_effects (map strip it) acc = inr (effects, map strip rest) /\
        forallb utf8_valid (map strip rest) = true
    end.
Proof.
  induction it as [|x it IH]; intros acc; cbn [map].
  - intros _. cbn. auto.
  - intros [Vx Vit]%forallb_cons_true.
    cbn [read_effects_decoded read_effects]. unfold decode_utf8.
    rewrite Vx. cbn [ret]. destruct (String.eqb (strip x) ""); [now split|].
    destruct (nth_error _ 3); [now apply IH|reflexivity].
Qed.

(** On well-formed UTF-8 decoding changes nothing: [scan_crate] on bytes is
    [scan_crate] on text. *)
Lemma scan_crate_bytes_valid (proc_stdout : string) :
  forallb utf8_valid (stdout_lines proc_stdout) = true ->
  scan_crate_bytes proc_stdout = scan_crate proc_stdout.
Proof.
  unfold scan_crate_bytes, scan_crate, stdout_lines.
  generalize (readlines proc_stdout). intros it.
  unfold scan_lines_decoded, scan_lines.
  destruct it as [|x it]; [reflexivity|]. cbn [map].
  intros [Vx Vit]%forallb_cons_true.
  cbn [next_decoded next bind ret]. unfold decode_utf8 at 1. rewrite Vx.
  cbn [bind ret].
  destruct (String.eqb (strip x) CARGO_SCAN_CSV_HEADER); [|reflexivity].
  cbn [assert bind ret].
  generalize (read_effects_decoded_valid it [] Vit).
  destruct (read_effects_decoded it []) as [e|[effs it1]].
  { intros ->. reflexivity. }
  intros [-> V1]. cbn [bind].
  destruct it1 as [|h it2]; [reflexivity|]. cbn [map] in *.
  apply forallb_cons_true in V1. destruct V1 as [Vh V2].
  cbn [next_decoded next bind ret]. unfold decode_utf8 at 1. rewrite Vh.
  cbn [bind ret].
  destruct (String.eqb (strip h) CARGO_SCAN_METADATA_HEADER); [|reflexivity].
  cbn [assert bind ret].
  destruct it2 as [|m it3]; [reflexivity|]. cbn [map] in *.
  apply forallb_cons_true in V2. destruct V2 as [Vm V3].
  cbn [next_decoded next bind ret]. unfold decode_utf8 at 1. rewrite Vm.
  cbn [bind ret].
  destruct it3 as [|y it4]; [reflexivity|]. cbn [map] in *.
  apply forallb_cons_true in V3. destruct V3 as [Vy _].
  cbn [next_decoded bind ret]. unfold decode_utf8. rewrite Vy. reflexivity.
Qed.

Lemma read_effects_all_findings fs :
  Forall finding_line fs ->
  forall acc, read_effects fs acc = ret (acc ++ map effect_of fs, []).
Proof.
  induction 1 as [|f fs [Hne Hcol] _ IH]; intros acc; cbn [read_effects map].
  - now rewrite app_nil_r.
  - apply String.eqb_neq in Hne. rewrite Hne.
    rewrite (nth_error_column3 f Hcol), IH.
    unfold effect_of at 2; simpl fst. now rewrite <- app_assoc.
Qed.

Lemma scan_lines_header_findings fs :
  Forall finding_line fs ->
  scan_lines (CARGO_SCAN_CSV_HEADER :: fs) = raise StopIteration.
Proof.
  intros Hfs. unfold scan_lines. cbn [next bind ret].
  rewrite String.eqb_refl. cbn [assert bind ret].
  now rewrite (read_effects_all_findings fs Hfs).
Qed.

Lemma scan_lines_header_findings_blank fs :
  Forall finding_line fs ->
  scan_lines (CARGO_SCAN_CSV_HEADER :: fs ++ [""]) = raise StopIteration.
Proof.
  intros Hfs. unfold scan_lines. cbn [next bind ret].
  rewrite String.eqb_refl. cbn [assert bind ret].
  now rewrite (read_effects_findings fs Hfs).
Qed.

(** X3: a well-formed stream cut short after any of its lines (or empty)
    makes [scan_crate] raise [StopIteration]: the end of the stream is never
    taken for the end of a shorter valid stream. *)
Theorem scan_crate_truncated (proc_stdout : string) fs metadata post :
  Forall finding_line fs ->
  stdout_lines proc_stdout ++ post
  = CARGO_SCAN_CSV_HEADER :: fs ++ "" :: CARGO_SCAN_METADATA_HEADER :: [metadata] ->
  post <> [] ->
  scan_crate proc_stdout = raise StopIteration.
Proof.
  intros Hfs Hsplit Hpost. unfold scan_crate.
  destruct (stdout_lines proc_stdout) as [|hdr pre]; [reflexivity|].
  cbn [app] in Hsplit. injection Hsplit as -> Hsplit.
  apply app_eq_app in Hsplit as [l [[-> Hl]|[-> Hl]]].
  - (* the cut is at or after the blank line *)
    destruct l as [|b [|h [|m l]]].
    + rewrite app_nil_r. now apply scan_lines_header_findings.
    + injection Hl as <- _. now apply scan_lines_header_findings_blank.
    + injection Hl as <- <- _.
      now rewrite (scan_lines_framed fs [] Hfs).
    + injection Hl as _ _ _ Hl.
      destruct l; [|discriminate]. cbn in Hl. congruence.
  - (* the cut is among the finding lines *)
    apply Forall_app in Hfs as [Hpre _].
    now apply scan_lines_header_findings.
Qed.

Lemma scan_crate_truncated_witness :
  scan_crate truncated_stream = raise StopIteration.
Proof.
  apply (scan_crate_truncated truncated_stream [scenario_row] scenario_metadata
           [CARGO_SCAN_METADATA_HEADER; scenario_metadata]).
  - constructor; [|constructor]. split; [discriminate|simpl; lia].
  - reflexivity.
  - discriminate.
Defined.

(** X4: a non-blank line with fewer than four comma-space columns, read
    where a finding or the separator is expected, makes [scan_crate] raise
    [IndexError], whatever follows it. *)
Theorem scan_crate_short_line (proc_stdout : string) fs l rest :
  stdout_lines proc_stdout = CARGO_SCAN_CSV_HEADER :: fs ++ l :: rest ->
  Forall finding_line fs ->
  l <> "" ->
  (length (split_comma_space l) < 4)%nat ->
  scan_crate proc_stdout = raise IndexError.
Proof.
  intros Hlines Hfs Hne Hshort. unfold scan_crate. rewrite Hlines.
  unfold scan_lines. cbn [next bind ret].
  rewrite String.eqb_refl. cbn [assert bind ret].
  assert (E : read_effects (fs ++ l :: rest) [] = raise IndexError).
  { generalize (@nil effect). clear Hlines.
    induction Hfs as [|f fs [Hf Hcol] _ IH]; intros acc;
      cbn [app read_effects].
    - apply String.eqb_neq in Hne. rewrite Hne.
      assert (H : nth_error (split_comma_space l) 3 = None)
        by (apply nth_error_None; lia).
      now rewrite H.
    - apply String.eqb_neq in Hf. rewrite Hf.
      rewrite (nth_error_column3 f Hcol). apply IH. }
  now rewrite E.
Qed.

Lemma scan_crate_short_line_witness :
  scan_crate no_separator_scenario_stream = raise IndexError.
Proof.
  apply (scan_crate_short_line no_separator_scenario_stream
           [scenario_row; CARGO_SCAN_METADATA_HEADER] scenario_metadata []).
  - reflexivity.
  - constructor; [split; [discriminate|vm_compute; lia]|].
    constructor; [split; [discriminate|vm_compute; lia]|constructor].
  - discriminate.
  - vm_compute. lia.
Defined.

(** ** The lines [scan_crate] reads *)

Lemma lstrip_idem s : lstrip (lstrip s) = lstrip s.
Proof.
  induction s as [|c s IH]; [reflexivity|]. cbn [lstrip].
  destruct (is_space c) eqn:E; [exact IH|]. cbn [lstrip]. now rewrite E.
Qed.

Lemma rstrip_idem s : rstrip (rstrip s) = rstrip s.
Proof.
  induction s as [|c s IH]; [reflexivity|]. cbn [rstrip].
  destruct (is_space c && String.eqb (rstrip s) "")%bool eqn:E; [reflexivity|].
  cbn [rstrip]. rewrite IH. now rewrite E.
Qed.

Lemma rstrip_lstrip s : rstrip s = s -> rstrip (lstrip s) = lstrip s.
Proof.
  induction s as [|c s IH]; [reflexivity|]. intros H. cbn [lstrip].
  destruct (is_space c) eqn:E; [|exact H].
  apply IH. cbn [rstrip] in H. rewrite E in H. cbn [andb] in H.
  destruct (String.eqb (rstrip s) ""); [discriminate|]. congruence.
Qed.

Lemma strip_idem s : strip (strip s) = strip s.
Proof.
  unfold strip.
  rewrite (rstrip_lstrip (rstrip s) (rstrip_idem s)). apply lstrip_idem.
Qed.

Lemma no_newline_lstrip s : no_newline s = true -> no_newline (lstrip s) = true.
Proof.
  induction s as [|c s IH]; [reflexivity|]. intros H. cbn [lstrip].
  destruct (is_space c); [|exact H].
  apply IH. cbn [no_newline] in H. now apply andb_prop in H as [_ H].
Qed.

Lemma no_newline_rstrip s : no_newline s = true -> no_newline (rstrip s) = true.
Proof.
  induction s as [|c s IH]; [reflexivity|]. intros H. cbn [rstrip].
  cbn [no_newline] in H. apply andb_prop in H as [Hc Hs].
  destruct (is_space c && String.eqb (rstrip s) "")%bool; [reflexivity|].
  cbn [no_newline]. now rewrite Hc, IH.
Qed.

(** Each result of [readline()] is a text without newline, ended by one or,
    at the end of the stream only, not; none is empty, so that the sentinel
    [b""] stops the iteration at the end of the stream and nowhere else. *)
Lemma readlines_shape s :
  Forall (fun r => r <> "" /\
                   exists l, no_newline l = true /\ (r = line l \/ r = l))
         (readlines s).
Proof.
  induction s as [|c s IH]; [constructor|]. cbn [readlines].
  destruct (Ascii.eqb c nl) eqn:E.
  - constructor; [|exact IH]. split; [discriminate|].
    exists "". split; [reflexivity|]. left.
    apply Ascii.eqb_eq in E. now subst c.
  - destruct (readlines s) as [|r rs].
    + constructor; [|constructor]. split; [discriminate|].
      exists (String c ""). cbn [no_newline]. rewrite E. auto.
    + inversion IH as [|? ? [_ (l & Hl & Hr)] Hrs]; subst.
      constructor; [|exact Hrs]. split; [discriminate|].
      exists (String c l). cbn [no_newline]. rewrite E, Hl.
      split; [reflexivity|]. destruct Hr as [->| ->]; auto.
Qed.

Lemma stdout_lines_stripped_aux (proc_stdout : string) :
  Forall stripped_line (stdout_lines proc_stdout).
Proof.
  unfold stdout_lines. apply Forall_map.
  eapply Forall_impl; [|apply readlines_shape].
  intros r [_ (l & Hl & Hr)]. unfold stripped_line.
  split; [apply strip_idem|].
  assert (E : strip r = strip l).
  { destruct Hr as [->| ->]; [apply strip_line|reflexivity]. }
  rewrite E. unfold strip. now apply no_newline_lstrip, no_newline_rstrip.
Qed.

(** X5: every line [scan_crate] works on is stripped (stripping it again
    changes nothing) and has no newline inside. *)
Theorem stdout_lines_stripped (proc_stdout : string) :
  Forall stripped_line (stdout_lines proc_stdout).
Proof. apply stdout_lines_stripped_aux. Qed.

Lemma split_comma_space_not_nil s : split_comma_space s <> [].
Proof.
  destruct s as [|c [|c2 s]]; [discriminate|discriminate|].
  change (split_comma_space (String c (String c2 s)))
    with (if (Ascii.eqb c "," && Ascii.eqb c2 " ")%bool
          then EmptyString :: split_comma_space s
          else match split_comma_space (String c2 s) with
               | [] => [String c EmptyString]
               | f :: fs => String c f :: fs
               end).
  destruct (Ascii.eqb c "," && Ascii.eqb c2 " ")%bool; [discriminate|].
  destruct (split_comma_space (String c2 s)); discriminate.
Qed.

Lemma join_comma_space_cons c f fs :
  join_comma_space (String c f :: fs) = String c (join_comma_space (f :: fs)).
Proof. destruct fs; reflexivity. Qed.

(** X6: joining the columns of a line with [", "] gives the line back, and
    a line always has a first column: the split loses nothing of a finding
    line. *)
Theorem split_join_comma_space (s : string) :
  join_comma_space (split_comma_space s) = s /\ split_comma_space s <> [].
Proof.
  split; [|apply split_comma_space_not_nil].
  enough (H : join_comma_space (split_comma_space s) = s /\
              forall c, join_comma_space (split_comma_space (String c s))
                        = String c s) by apply H.
  induction s as [|a s [IH1 IH2]].
  - split; reflexivity.
  - split; [apply IH2|]. intros c.
    change (split_comma_space (String c (String a s)))
      with (if (Ascii.eqb c "," && Ascii.eqb a " ")%bool
            then EmptyString :: split_comma_space s
            else match split_comma_space (String a s) with
                 | [] => [String c EmptyString]
                 | f :: fs => String c f :: fs
                 end).
    destruct (Ascii.eqb c "," && Ascii.eqb a " ")%bool eqn:E.
    + apply andb_prop in E as [Ec Ea].
      apply Ascii.eqb_eq in Ec, Ea. subst c a.
      destruct (split_comma_space s) as [|f fs] eqn:Es.
      * now apply split_comma_space_not_nil in Es.
      * cbn [join_comma_space]. cbn. now rewrite <- IH1.
    + specialize (IH2 a).
      destruct (split_comma_space (String a s)) as [|f fs] eqn:Es.
      * now apply split_comma_space_not_nil in Es.
      * rewrite join_comma_space_cons. now rewrite IH2.
Qed.

(** ** Keys and values of the summaries *)

Lemma dict_get_none_keys {V} (d : dict V) k :
  dict_get d k = None <-> ~ In k (keys d).
Proof.
  induction d as [|[k' v'] d IH]; cbn [dict_get keys map fst In].
  - tauto.
  - destruct (String.eqb_spec k' k) as [->|Hne].
    + split; [discriminate|]. intros H. exfalso. apply H. now left.
    + unfold keys in IH. rewrite IH. tauto.
Qed.

Lemma dict_get_some_keys {V} (d : dict V) k :
  In k (keys d) -> exists v, dict_get d k = Some v.
Proof.
  intros H. destruct (dict_get d k) as [v|] eqn:E; [eauto|].
  now apply dict_get_none_keys in E.
Qed.

Lemma keys_dict_set {V} (d : dict V) k v :
  keys (dict_set d k v)
  = match dict_get d k with
    | Some _ => keys d
    | None => keys d ++ [k]
    end.
Proof.
  unfold keys.
  induction d as [|[k' v'] d IH]; cbn [dict_set dict_get]; [reflexivity|].
  destruct (String.eqb k' k); [reflexivity|].
  cbn [map fst]. rewrite IH.
  destruct (dict_get d k); reflexivity.
Qed.

Lemma nodup_keys_dict_set {V} (d : dict V) k v :
  NoDup (keys d) -> NoDup (keys (dict_set d k v)).
Proof.
  intros H. rewrite keys_dict_set.
  destruct (dict_get d k) eqn:E; [exact H|].
  apply dict_get_none_keys in E.
  apply NoDup_app; [exact H|constructor; [intros []|constructor]|].
  intros x Hx [<-|[]]. contradiction.
Qed.

Lemma dict_set_setdefault (d : dict Z) k v :
  dict_set (setdefault d k 0) k v = dict_set d k v.
Proof.
  unfold setdefault. destruct (dict_get d k) eqn:E; [reflexivity|].
  clear E. induction d as [|[k' v'] d IH]; cbn [dict_set].
  - now rewrite String.eqb_refl.
  - destruct (String.eqb k' k) eqn:Ek; cbn [dict_set]; rewrite Ek;
      [reflexivity|now rewrite IH].
Qed.

Lemma values_dict_set {V} (P : V -> Prop) (d : dict V) k v :
  Forall P (values d) -> P v -> Forall P (values (dict_set d k v)).
Proof.
  intros Hd Hv. induction d as [|[k' v'] d IH]; cbn [dict_set values map snd].
  - constructor; [exact Hv|constructor].
  - cbn [values map snd] in Hd. inversion Hd; subst.
    destruct (String.eqb k' k); cbn [map snd]; constructor; auto.
Qed.

Lemma dict_get_in_values {V} (d : dict V) k v :
  dict_get d k = Some v -> In v (values d).
Proof.
  induction d as [|[k' v'] d IH]; cbn [dict_get values map snd In];
    [discriminate|].
  destruct (String.eqb k' k); [intros H; injection H as ->; now left|].
  intros H. right. now apply IH.
Qed.

Lemma keys_fold_set {V} (cs : list string) (v : V) :
  forall d,
    NoDup (keys d) ->
    NoDup (keys (fold_left (fun d c => dict_set d c v) cs d)) /\
    forall c, In c (keys (fold_left (fun d c => dict_set d c v) cs d))
              <-> In c (keys d) \/ In c cs.
Proof.
  induction cs as [|c' cs IH]; intros d Hd; cbn [fold_left In].
  - split; [exact Hd|]. tauto.
  - destruct (IH (dict_set d c' v) (nodup_keys_dict_set d c' v Hd)) as [H1 H2].
    split; [exact H1|]. intros c. rewrite H2, keys_dict_set.
    destruct (dict_get d c') eqn:E.
    + assert (In c' (keys d)).
      { destruct (in_dec string_dec c' (keys d)) as [Hi|Hn]; [exact Hi|].
        apply dict_get_none_keys in Hn. congruence. }
      split; [intros [?|?]; auto|intros [?|[<-|?]]; auto].
    + rewrite in_app_iff. cbn [In]. tauto.
Qed.

(** The keys of a summary built over the crate list: each crate once. *)
Lemma keys_comprehension {V} (cs : list string) (v : V) :
  NoDup (keys (dict_comprehension cs v)) /\
  forall c, In c (keys (dict_comprehension cs v)) <-> In c cs.
Proof.
  destruct (keys_fold_set cs v [] (NoDup_nil _)) as [H1 H2].
  split; [exact H1|]. intros c. unfold dict_comprehension. rewrite H2.
  cbn. tauto.
Qed.

Lemma count_of_set_same (d : dict Z) k v : count_of (dict_set d k v) k = v.
Proof. unfold count_of. now rewrite dict_get_set_same. Qed.

Lemma count_of_set_other (d : dict Z) k v k' :
  k' <> k -> count_of (dict_set d k v) k' = count_of d k'.
Proof. intros H. unfold count_of. now rewrite dict_get_set_other. Qed.

(** ** The run as a whole *)

Lemma fold_effect_bucket crate s eff_pat eff_csv n :
  dict_get (crate_summary s) crate = Some n ->
  fold_effect crate s (eff_pat, eff_csv)
  = ({| results := results s ++ [eff_csv];
        crate_summary := dict_set (crate_summary s) crate (n + 1);
        pattern_summary :=
          dict_set (pattern_summary s) eff_pat
                   (count_of (pattern_summary s) eff_pat + 1);
        metadata_summary := metadata_summary s |}, Completed).
Proof.
  intros Hn. rewrite fold_effect_eq, Hn. now rewrite dict_set_setdefault.
Qed.

Lemma run_inv_bucket crates s crate :
  run_inv crates s -> In crate crates ->
  exists n, dict_get (crate_summary s) crate = Some n /\ 0 <= n.
Proof.
  intros (Hk & _ & _ & _ & Hv & _) Hin.
  destruct (dict_get_some_keys (crate_summary s) crate) as [n Hn].
  { rewrite Hk. now apply keys_comprehension. }
  exists n. split; [exact Hn|].
  apply dict_get_in_values in Hn.
  rewrite Forall_forall in Hv. now apply Hv.
Qed.

Lemma count_of_nonneg (d : dict Z) k :
  Forall (fun n => 0 < n) (values d) -> 0 <= count_of d k.
Proof.
  intros H. unfold count_of. destruct (dict_get d k) as [m|] eqn:E; [|lia].
  apply dict_get_in_values in E. rewrite Forall_forall in H.
  specialize (H m E). lia.
Qed.

Lemma count_pattern_cons p e effects :
  Z.of_nat (count_pattern p (e :: effects))
  = (if String.eqb (fst e) p then 1 else 0) + Z.of_nat (count_pattern p effects).
Proof.
  unfold count_pattern. cbn [filter].
  destruct (String.eqb (fst e) p); cbn [length]; lia.
Qed.

Lemma count_pattern_app p l1 l2 :
  count_pattern p (l1 ++ l2) = (count_pattern p l1 + count_pattern p l2)%nat.
Proof. unfold count_pattern. now rewrite filter_app, length_app. Qed.

(** The findings loop of [main] for a crate of the run. *)
Lemma fold_effects_inv crates crate effects :
  In crate crates ->
  forall s,
    run_inv crates s ->
    Forall stripped_line (map snd effects) ->
    exists s',
      fold_effects crate s effects = (s', Completed) /\
      run_inv crates s' /\
      results s' = results s ++ map snd effects /\
      (forall c, count_of (crate_summary s') c
                 = count_of (crate_summary s) c
                   + (if String.eqb c crate then Z.of_nat (length effects) else 0)) /\
      (forall p, count_of (pattern_summary s') p
                 = count_of (pattern_summary s) p
                   + Z.of_nat (count_pattern p effects)) /\
      metadata_summary s' = metadata_summary s.
Proof.
  intros Hin. induction effects as [|[eff_pat eff_csv] effects IH];
    intros s Hinv Hstr.
  - exists s. cbn [fold_effects map length]. rewrite app_nil_r.
    repeat split; try assumption; try apply Hinv.
    + intros c. destruct (String.eqb c crate); cbn; lia.
    + intros p. cbn. lia.
  - destruct (run_inv_bucket crates s crate Hinv Hin) as (n & Hn & Hn0).
    cbn [fold_effects]. rewrite (fold_effect_bucket crate s eff_pat eff_csv n Hn).
    cbn [map snd] in Hstr. inversion Hstr as [|? ? Hcsv Hrest]; subst.
    set (s1 := {| results := results s ++ [eff_csv];
                  crate_summary := dict_set (crate_summary s) crate (n + 1);
                  pattern_summary :=
                    dict_set (pattern_summary s) eff_pat
                             (count_of (pattern_summary s) eff_pat + 1);
                  metadata_summary := metadata_summary s |}).
    assert (Hinv1 : run_inv crates s1).
    { destruct Hinv as (Hk & Hm & Hp & Hacc & Hv & Hpv & Hres).
      unfold run_inv, s1.
      cbn [results crate_summary pattern_summary metadata_summary].
      repeat split.
      - rewrite keys_dict_set, Hn. exact Hk.
      - exact Hm.
      - now apply nodup_keys_dict_set.
      - rewrite length_app, sum_values_set. cbn [length].
        unfold count_of. rewrite Hn. lia.
      - apply values_dict_set; [exact Hv|lia].
      - apply values_dict_set; [exact Hpv|].
        assert (H := count_of_nonneg (pattern_summary s) eff_pat Hpv). lia.
      - apply Forall_app. split; [exact Hres|]. constructor; [exact Hcsv|constructor]. }
    destruct (IH s1 Hinv1 Hrest) as (s' & E & Hinv' & Hr & Hc & Hp & Hm).
    exists s'. split; [exact E|]. split; [exact Hinv'|]. split; [|split; [|split]].
    + rewrite Hr. unfold s1. cbn [results map snd]. now rewrite <- app_assoc.
    + intros c. rewrite Hc. unfold s1. cbn [crate_summary length].
      destruct (String.eqb_spec c crate) as [->|Hne].
      * rewrite count_of_set_same. unfold count_of. rewrite Hn. lia.
      * rewrite count_of_set_other by exact Hne. lia.
    + intros p. rewrite Hp, count_pattern_cons. unfold s1.
      cbn [pattern_summary fst].
      destruct (String.eqb_spec eff_pat p) as [->|Hne].
      * rewrite count_of_set_same. lia.
      * rewrite count_of_set_other by congruence. lia.
    + exact Hm.
Qed.

Lemma scan_crate_findings_stripped (proc_stdout : string) effects metadata :
  scan_crate proc_stdout = ret (effects, metadata) ->
  Forall stripped_line (map snd effects).
Proof.
  intros H. destruct (scan_crate_shape_aux _ _ _ H) as [Hlines _].
  assert (Hs := stdout_lines_stripped_aux proc_stdout). rewrite Hlines in Hs.
  inversion Hs as [|? ? _ Hrest]; subst.
  now apply Forall_app in Hrest as [Hf _].
Qed.

Section RunProperties.

Variable read_text : string -> string.
Variable csv_reader : string -> list (list string).
Variable path_exists : string -> bool.
Variable cargo_download : string -> string -> Z.
Variable cargo_scan : string -> string.

Local Abbreviation download_crate' := (download_crate path_exists cargo_download).
Local Abbreviation scan_one' := (scan_one path_exists cargo_download cargo_scan).
Local Abbreviation scan_all' := (scan_all path_exists cargo_download cargo_scan).
Local Abbreviation main' :=
  (main read_text csv_reader path_exists cargo_download cargo_scan).
Local Abbreviation enumerate_crates' := (enumerate_crates read_text csv_reader).
Local Abbreviation findings_of' := (findings_of cargo_scan).
Local Abbreviation metadata_of' := (metadata_of cargo_scan).
Local Abbreviation scan_one_post' :=
  (scan_one_post path_exists cargo_download cargo_scan).

Lemma download_crate_raises crates_dir crate test_run e :
  download_crate' crates_dir crate test_run = raise e ->
  e = CalledProcessError /\ test_run = false /\
  path_exists (path_join crates_dir crate) = false /\
  cargo_download crate (path_join crates_dir crate) <> 0.
Proof.
  unfold download_crate.
  destruct (path_exists _); [discriminate|].
  destruct test_run; [discriminate|].
  destruct (Z.eqb_spec (cargo_download crate (path_join crates_dir crate)) 0);
    [discriminate|].
  intros H. injection H as <-. auto.
Qed.

Lemma init_summaries_inv crates : run_inv crates (init_summaries crates).
Proof.
  unfold run_inv, init_summaries.
  cbn [results crate_summary pattern_summary metadata_summary].
  repeat split; try constructor.
  - cbn [length]. now rewrite sum_values_comprehension.
  - unfold values. apply Forall_map.
    eapply Forall_impl;
      [|apply (dict_comprehension_from crates 0 []); constructor].
    intros [k v] H. cbn in *. lia.
Qed.

Lemma scan_one_inv crates crates_dir test_run s crate :
  run_inv crates s -> In crate crates ->
  exists s' st,
    scan_one' crates_dir test_run s crate = (s', st) /\
    run_inv crates s' /\
    scan_one_post' crates_dir test_run crate s s' st.
Proof.
  intros Hinv Hin. unfold scan_one.
  destruct (download_crate' crates_dir crate test_run) as [e|[]] eqn:Ed.
  { exists s, (SysExit 1). split; [reflexivity|]. split; [exact Hinv|].
    cbn. destruct (download_crate_raises _ _ _ _ Ed) as [-> _]. auto. }
  destruct (scan_crate (cargo_scan (path_join crates_dir crate)))
    as [e|[effects metadata]] eqn:Es.
  { exists s, (Raised e). split; [reflexivity|]. split; [exact Hinv|].
    cbn. auto. }
  destruct (fold_effects_inv crates crate effects Hin s Hinv
              (scan_crate_findings_stripped _ _ _ Es))
    as (s1 & -> & Hinv1 & Hr & Hc & Hp & Hm).
  exists (store_metadata crate metadata s1), Completed.
  split; [reflexivity|]. split.
  - destruct Hinv1 as (Hk & Hmk & Hrest). unfold run_inv, store_metadata.
    cbn [results crate_summary pattern_summary metadata_summary].
    split; [exact Hk|]. split; [|exact Hrest].
    rewrite keys_dict_set.
    destruct (dict_get_some_keys (metadata_summary s1) crate) as [m0 ->];
      [|exact Hmk].
    rewrite Hmk. now apply keys_comprehension.
  - cbn. exists effects, metadata.
    unfold store_metadata.
    cbn [results crate_summary pattern_summary metadata_summary].
    repeat split; auto.
    + apply dict_get_set_same.
    + intros c Hc'. rewrite dict_get_set_other by exact Hc'. now rewrite Hm.
Qed.

Lemma scan_all_inv crates crates_dir test_run cs :
  incl cs crates ->
  forall s,
    run_inv crates s ->
    exists s' st,
      scan_all' crates_dir test_run s cs = (s', st) /\
      run_inv crates s' /\
      match st with
      | Completed => True
      | SysExit code =>
          code = 1 /\
          exists crate,
            In crate cs /\
            download_crate' crates_dir crate test_run = raise CalledProcessError
      | Raised e =>
          exists crate,
            In crate cs /\
            scan_crate (cargo_scan (path_join crates_dir crate)) = raise e
      end.
Proof.
  induction cs as [|crate cs IH]; intros Hincl s Hinv.
  - exists s, Completed. cbn. auto.
  - assert (Hin : In crate crates) by (apply Hincl; now left).
    assert (Hincl' : incl cs crates) by (intros c Hc; apply Hincl; now right).
    destruct (scan_one_inv crates crates_dir test_run s crate Hinv Hin)
      as (s1 & st1 & E1 & Hinv1 & Hpost).
    cbn [scan_all]. rewrite E1. destruct st1 as [|code|e].
    + destruct (IH Hincl' s1 Hinv1) as (s' & st & E & Hinv' & Hst).
      exists s', st. split; [exact E|]. split; [exact Hinv'|].
      destruct st as [|code|e]; [exact I| |].
      * destruct Hst as (Hc & c & Hc1 & Hc2). split; [exact Hc|].
        exists c. split; [now right|exact Hc2].
      * destruct Hst as (c & Hc1 & Hc2). exists c. split; [now right|exact Hc2].
    + exists s1, (SysExit code). split; [reflexivity|]. split; [exact Hinv1|].
      destruct Hpost as (Hc & _ & Hd). split; [exact Hc|].
      exists crate. split; [now left|exact Hd].
    + exists s1, (Raised e). split; [reflexivity|]. split; [exact Hinv1|].
      destruct Hpost as (_ & He). exists crate. split; [now left|exact He].
Qed.

Lemma scan_all_completed crates crates_dir test_run cs :
  incl cs crates ->
  forall s s',
    run_inv crates s ->
    scan_all' crates_dir test_run s cs = (s', Completed) ->
    results s'
    = results s ++ flat_map (fun c => map snd (findings_of' crates_dir c)) cs /\
    (forall c, count_of (crate_summary s') c
               = count_of (crate_summary s) c
                 + Z.of_nat (count_occ string_dec cs c)
                   * Z.of_nat (length (findings_of' crates_dir c))) /\
    (forall p, count_of (pattern_summary s') p
               = count_of (pattern_summary s) p
                 + Z.of_nat (count_pattern
                               p (flat_map (findings_of' crates_dir) cs))) /\
    (forall c, In c cs ->
               dict_get (metadata_summary s') c
               = Some (metadata_of' crates_dir c)) /\
    (forall c, ~ In c cs ->
               dict_get (metadata_summary s') c
               = dict_get (metadata_summary s) c) /\
    (forall c, In c cs ->
               exists effects metadata,
                 scan_crate (cargo_scan (path_join crates_dir c))
                 = ret (effects, metadata)).
Proof.
  induction cs as [|crate cs IH]; intros Hincl s s' Hinv.
  - cbn. intros H. injection H as <-. rewrite app_nil_r.
    repeat split; try (intros; lia); try tauto.
  - assert (Hin : In crate crates) by (apply Hincl; now left).
    assert (Hincl' : incl cs crates) by (intros c Hc; apply Hincl; now right).
    destruct (scan_one_inv crates crates_dir test_run s crate Hinv Hin)
      as (s1 & st1 & E1 & Hinv1 & Hpost).
    cbn [scan_all]. rewrite E1.
    destruct st1 as [|code|e]; [|discriminate|discriminate].
    intros E.
    destruct (IH Hincl' s1 s' Hinv1 E) as (Hr & Hc & Hp & Hm & Hm' & Hok).
    destruct Hpost as (effects & metadata & Es & Hr1 & Hc1 & Hp1 & Hm1 & Hm1').
    assert (Ef : findings_of' crates_dir crate = effects)
      by (unfold findings_of; now rewrite Es).
    assert (Em : metadata_of' crates_dir crate = metadata)
      by (unfold metadata_of; now rewrite Es).
    split; [|split; [|split; [|split; [|split]]]].
    + rewrite Hr, Hr1. cbn [flat_map]. rewrite Ef. now rewrite <- app_assoc.
    + intros c. rewrite Hc, Hc1. cbn [count_occ].
      destruct (string_dec crate c) as [->|Hne].
      * rewrite String.eqb_refl, Ef. lia.
      * destruct (String.eqb_spec c crate) as [->|_]; [contradiction|]. lia.
    + intros p. rewrite Hp, Hp1. cbn [flat_map].
      rewrite count_pattern_app, Ef. lia.
    + intros c [<-|Hc'].
      * destruct (in_dec string_dec crate cs) as [Hi|Hn].
        -- now apply Hm.
        -- rewrite (Hm' crate Hn), Hm1. now rewrite Em.
      * now apply Hm.
    + intros c Hn. rewrite Hm'; [|intros Hc'; apply Hn; now right].
      apply Hm1'. intros ->. apply Hn. now left.
    + intros c [<-|Hc']; [eauto|now apply Hok].
Qed.

Lemma main_scan_all a s st :
  main' a = (Some s, st) ->
  exists num_crates crates,
    enumerate_crates' a = ret (num_crates, crates) /\
    scan_all' (if test_run a then TEST_CRATES_DIR else CRATES_DIR)
              (test_run a) (init_summaries crates) crates = (s, st).
Proof.
  unfold main.
  destruct (select_log_level (verbose a)); [discriminate|].
  destruct (enumerate_crates' a) as [e|[num_crates crates]]; [discriminate|].
  destruct (scan_all' _ _ _ _) as [s' st'] eqn:E.
  intros H. injection H as <- <-. eauto.
Qed.

Lemma main_run_inv a s st num_crates crates :
  enumerate_crates' a = ret (num_crates, crates) ->
  main' a = (Some s, st) ->
  run_inv crates s.
Proof.
  intros He Hm. destruct (main_scan_all a s st Hm) as (n & cs & He' & Hs).
  rewrite He in He'. injection He' as <- <-.
  destruct (scan_all_inv crates
              (if test_run a then TEST_CRATES_DIR else CRATES_DIR)
              (test_run a) crates (incl_refl _)
              (init_summaries crates) (init_summaries_inv crates))
    as (s' & st' & E & Hinv & _).
  rewrite Hs in E. now injection E as <- <-.
Qed.

Lemma main_completed a s num_crates crates :
  enumerate_crates' a = ret (num_crates, crates) ->
  main' a = (Some s, Completed) ->
  scan_all' (if test_run a then TEST_CRATES_DIR else CRATES_DIR)
            (test_run a) (init_summaries crates) crates = (s, Completed).
Proof.
  intros He Hm. destruct (main_scan_all a s _ Hm) as (n & cs & He' & Hs).
  rewrite He in He'. now injection He' as <- <-.
Qed.

Lemma count_of_init_crates crates c :
  count_of (crate_summary (init_summaries crates)) c = 0.
Proof.
  unfold count_of, init_summaries. cbn [crate_summary].
  destruct (dict_get (dict_comprehension crates 0) c) as [n|] eqn:E;
    [|reflexivity].
  apply dict_get_in_values in E.
  assert (H := dict_comprehension_from crates 0 [] (Forall_nil _)).
  unfold values in E. apply in_map_iff in E as ([k v] & <- & Hin).
  rewrite Forall_forall in H. exact (H _ Hin).
Qed.

(** X7: when [main] runs to its end, the raw results are the finding lines
    of the crates, crate after crate in the order of the crate list, the
    lines of a crate in the order of its stream. *)
Theorem main_results_in_order a s num_crates crates :
  enumerate_crates' a = ret (num_crates, crates) ->
  main' a = (Some s, Completed) ->
  results s
  = flat_map (fun c => map snd (findings_of'
                                  (if test_run a then TEST_CRATES_DIR
                                   else CRATES_DIR) c)) crates.
Proof.
  intros He Hm.
  destruct (scan_all_completed crates _ _ crates (incl_refl _) _ _
              (init_summaries_inv crates) (main_completed a s _ _ He Hm))
    as (Hr & _).
  exact Hr.
Qed.

(** X8: when [main] runs to its end, the crate summary gives each crate of
    the list the number of findings of its stream, once for each time the
    crate is listed. *)
Theorem main_crate_counts a s num_crates crates c :
  enumerate_crates' a = ret (num_crates, crates) ->
  main' a = (Some s, Completed) ->
  In c crates ->
  dict_get (crate_summary s) c
  = Some (Z.of_nat (count_occ string_dec crates c)
          * Z.of_nat (length (findings_of'
                                (if test_run a then TEST_CRATES_DIR
                                 else CRATES_DIR) c))).
Proof.
  intros He Hm Hin.
  destruct (scan_all_completed crates _ _ crates (incl_refl _) _ _
              (init_summaries_inv crates) (main_completed a s _ _ He Hm))
    as (_ & Hc & _).
  specialize (Hc c). rewrite count_of_init_crates in Hc.
  destruct (run_inv_bucket crates s c (main_run_inv a s _ _ _ He Hm) Hin)
    as (n & Hn & _).
  unfold count_of in Hc. rewrite Hn in Hc. rewrite Hn. f_equal. lia.
Qed.

(** X9: when [main] runs to its end, the pattern summary counts, for each
    pattern, the findings of the whole run with that pattern, and it has a
    bucket for exactly the patterns that occur. *)
Theorem main_pattern_counts a s num_crates crates p :
  enumerate_crates' a = ret (num_crates, crates) ->
  main' a = (Some s, Completed) ->
  let n := Z.of_nat (count_pattern
                       p (flat_map (findings_of'
                                      (if test_run a then TEST_CRATES_DIR
                                       else CRATES_DIR)) crates)) in
  count_of (pattern_summary s) p = n /\
  (In p (keys (pattern_summary s)) <-> 0 < n).
Proof.
  intros He Hm n.
  destruct (scan_all_completed crates _ _ crates (incl_refl _) _ _
              (init_summaries_inv crates) (main_completed a s _ _ He Hm))
    as (_ & _ & Hp & _).
  specialize (Hp p). cbn [init_summaries pattern_summary] in Hp.
  change (count_of [] p) with 0 in Hp.
  assert (Hn : count_of (pattern_summary s) p = n) by (subst n; lia).
  split; [exact Hn|].
  destruct (main_run_inv a s _ _ _ He Hm) as (_ & _ & _ & _ & _ & Hpos & _).
  rewrite <- Hn. unfold count_of.
  destruct (dict_get (pattern_summary s) p) as [m|] eqn:E.
  - split.
    + intros _. apply dict_get_in_values in E.
      rewrite Forall_forall in Hpos. now apply Hpos.
    + intros _. destruct (in_dec string_dec p (keys (pattern_summary s)))
        as [Hi|Hni]; [exact Hi|].
      apply dict_get_none_keys in Hni. congruence.
  - apply dict_get_none_keys in E. split; [contradiction|lia].
Qed.

(** X10: when [main] runs to its end, every crate of the list was parsed
    and the metadata summary holds, for each, the metadata row of its
    stream. *)
Theorem main_metadata a s num_crates crates c :
  enumerate_crates' a = ret (num_crates, crates) ->
  main' a = (Some s, Completed) ->
  In c crates ->
  exists effects metadata,
    scan_crate (cargo_scan (path_join (if test_run a then TEST_CRATES_DIR
                                       else CRATES_DIR) c))
    = ret (effects, metadata) /\
    dict_get (metadata_summary s) c = Some metadata.
Proof.
  intros He Hm Hin.
  destruct (scan_all_completed crates _ _ crates (incl_refl _) _ _
              (init_summaries_inv crates) (main_completed a s _ _ He Hm))
    as (_ & _ & _ & Hmd & _ & Hok).
  destruct (Hok c Hin) as (effects & metadata & Es).
  exists effects, metadata. split; [exact Es|].
  rewrite (Hmd c Hin). unfold metadata_of. now rewrite Es.
Qed.

(** How [main] leaves the loop over the crates. *)
Lemma main_loop_outcomes a s st num_crates crates :
  enumerate_crates' a = ret (num_crates, crates) ->
  main' a = (Some s, st) ->
  let crates_dir := if test_run a then TEST_CRATES_DIR else CRATES_DIR in
  match st with
  | Completed => True
  | SysExit code =>
      code = 1 /\ test_run a = false /\
      exists crate,
        In crate crates /\
        path_exists (path_join crates_dir crate) = false /\
        cargo_download crate (path_join crates_dir crate) <> 0
  | Raised e =>
      exists crate,
        In crate crates /\
        scan_crate (cargo_scan (path_join crates_dir crate)) = raise e
  end.
Proof.
  intros He Hm crates_dir.
  destruct (main_scan_all a s st Hm) as (n & cs & He' & Hs).
  rewrite He in He'. injection He' as <- <-.
  destruct (scan_all_inv crates crates_dir (test_run a) crates (incl_refl _)
              (init_summaries crates) (init_summaries_inv crates))
    as (s' & st' & E & _ & Hst).
  fold crates_dir in Hs. rewrite Hs in E. injection E as <- <-.
  destruct st as [|code|e]; [exact I| |exact Hst].
  destruct Hst as (Hc & crate & Hin & Hd).
  destruct (download_crate_raises _ _ _ _ Hd) as (_ & Ht & Hp & Hz).
  split; [exact Hc|]. split; [exact Ht|]. exists crate. auto.
Qed.

Lemma write_files_inv (write_file : string -> string -> raises unit) files :
  match write_files write_file files with
  | Completed =>
      Forall (fun f => write_file (fst f) (snd f) = ret tt) files
  | SysExit _ => False
  | Raised e =>
      exists path text, In (path, text) files /\ write_file path text = raise e
  end.
Proof.
  induction files as [|[path text] files IH]; cbn [write_files].
  - constructor.
  - destruct (write_file path text) as [e|[]] eqn:E.
    + exists path, text. split; [now left|exact E].
    + destruct (write_files write_file files) as [|code|e].
      * constructor; [exact E|exact IH].
      * exact IH.
      * destruct IH as (p & t & Hin & Hw). exists p, t. split; [now right|exact Hw].
Qed.

(** X11: once the crate list is read, the analyzer writing UTF-8 for every
    crate, [main] ends in one of four ways.  It runs to its end, every
    result file written when there is an output prefix.  It exits with
    status 1 because a crate was missing outside a test run and
    [cargo download] failed.  An exception of [scan_crate] on one of the
    crates escapes.  Or the loop over the crates ran to its end and the
    exception raised while a result file was written escapes.  The lookups
    in the summaries never raise. *)
Theorem main_outcomes (write_file : string -> string -> raises unit)
        a s st num_crates crates :
  let crates_dir := if test_run a then TEST_CRATES_DIR else CRATES_DIR in
  enumerate_crates' a = ret (num_crates, crates) ->
  main_and_report write_file read_text csv_reader path_exists cargo_download
                  cargo_scan a = (Some s, st) ->
  (forall crate,
      In crate crates ->
      forallb utf8_valid (stdout_lines (cargo_scan (path_join crates_dir crate)))
      = true) ->
  match st with
  | Completed =>
      main' a = (Some s, Completed) /\
      forall prefix,
        output_prefix a = Some prefix ->
        Forall (fun f => write_file (fst f) (snd f) = ret tt)
               (saved_results prefix s)
  | SysExit code =>
      code = 1 /\ test_run a = false /\
      exists crate,
        In crate crates /\
        path_exists (path_join crates_dir crate) = false /\
        cargo_download crate (path_join crates_dir crate) <> 0
  | Raised e =>
      (exists crate,
          In crate crates /\
          scan_crate_bytes (cargo_scan (path_join crates_dir crate)) = raise e) \/
      (main' a = (Some s, Completed) /\
       exists prefix path text,
         output_prefix a = Some prefix /\
         In (path, text) (saved_results prefix s) /\
         write_file path text = raise e)
  end.
Proof.
  intros crates_dir He Hm Hv. unfold main_and_report in Hm.
  destruct (main' a) as [[s0|] st0] eqn:Em.
  2:{ destruct st; discriminate. }
  assert (Hloop := main_loop_outcomes a s0 st0 num_crates crates He Em).
  cbv zeta in Hloop. fold crates_dir in Hloop.
  destruct st0 as [|code0|e0].
  - injection Hm as <- Hr. unfold report in Hr.
    destruct (output_prefix a) as [prefix|] eqn:Ep.
    + generalize (write_files_inv write_file (saved_results prefix s0)).
      rewrite Hr. destruct st as [|code|e].
      * intros Hw. split; [reflexivity|].
        intros prefix' Hp. injection Hp as <-. exact Hw.
      * intros [].
      * intros (path & text & Hin & Hw). right. split; [reflexivity|].
        exists prefix, path, text. auto.
    + subst st. split; [reflexivity|]. discriminate.
  - injection Hm as <- <-. exact Hloop.
  - injection Hm as <- <-. left.
    destruct Hloop as (crate & Hin & Hs). exists crate. split; [exact Hin|].
    rewrite scan_crate_bytes_valid; [exact Hs|]. now apply Hv.
Qed.

(** X12: however [main] ends once the crate list is read, the crate summary
    and the metadata summary have the crates of the list for keys, each
    once, the pattern summary has no pattern twice and none with a count
    below 1. *)
Theorem main_summary_keys a s st num_crates crates :
  enumerate_crates' a = ret (num_crates, crates) ->
  main' a = (Some s, st) ->
  NoDup (keys (crate_summary s)) /\
  (forall c, In c (keys (crate_summary s)) <-> In c crates) /\
  NoDup (keys (metadata_summary s)) /\
  (forall c, In c (keys (metadata_summary s)) <-> In c crates) /\
  NoDup (keys (pattern_summary s)) /\
  Forall (fun n => 1 <= n) (values (pattern_summary s)).
Proof.
  intros He Hm.
  destruct (main_run_inv a s st _ _ He Hm)
    as (Hk & Hmk & Hp & _ & _ & Hpos & _).
  rewrite Hk, Hmk.
  destruct (keys_comprehension crates 0) as [H1 H2].
  destruct (keys_comprehension crates EmptyString) as [H3 H4].
  repeat split; try assumption; try apply H2; try apply H4.
  eapply Forall_impl; [|exact Hpos]. intros n Hn. cbn in Hn. lia.
Qed.

(** X13: however [main] ends once the crate list is read, it holds as many
    raw results as the crate summary counts findings, and no crate count is
    negative. *)
Theorem main_results_accounted a s st num_crates crates :
  enumerate_crates' a = ret (num_crates, crates) ->
  main' a = (Some s, st) ->
  Z.of_nat (length (results s)) = sum (values (crate_summary s)) /\
  Forall (fun n => 0 <= n) (values (crate_summary s)).
Proof.
  intros He Hm.
  destruct (main_run_inv a s st _ _ He Hm) as (_ & _ & _ & Hacc & Hv & _).
  auto.
Qed.

Lemma fold_left_lines rs :
  forall text,
    fold_left (fun text eff_csv => (text ++ line eff_csv)%string) rs text
    = (text ++ unlines rs)%string.
Proof.
  induction rs as [|r rs IH]; intros text; cbn [fold_left unlines fold_right].
  - now rewrite append_nil_r.
  - fold (unlines rs). rewrite IH. unfold line.
    now rewrite !append_assoc.
Qed.

Lemma all_results_text_unlines rs :
  all_results_text rs = unlines (CARGO_SCAN_CSV_HEADER :: rs).
Proof.
  unfold all_results_text. rewrite fold_left_lines.
  cbn [unlines fold_right]. fold (unlines rs). unfold line.
  now rewrite append_assoc.
Qed.

Lemma all_results_text_lines rs :
  Forall stripped_line rs ->
  stdout_lines (all_results_text rs) = CARGO_SCAN_CSV_HEADER :: rs.
Proof.
  intros Hrs. rewrite all_results_text_unlines, stdout_lines_unlines.
  - cbn [map]. f_equal.
    induction Hrs as [|r rs [Hr _] _ IH]; [reflexivity|].
    cbn [map]. now rewrite Hr, IH.
  - constructor; [reflexivity|].
    eapply Forall_impl; [|exact Hrs]. now intros r [_ Hr].
Qed.

(** X14: the file of all results [main] writes reads back, line by line and
    stripped as [scan_crate] reads a stream, as the finding header followed
    by the raw results: one line for each finding, none split or merged. *)
Theorem main_results_file a s st num_crates crates :
  enumerate_crates' a = ret (num_crates, crates) ->
  main' a = (Some s, st) ->
  stdout_lines (all_results_text (results s))
  = CARGO_SCAN_CSV_HEADER :: results s.
Proof.
  intros He Hm. apply all_results_text_lines.
  now destruct (main_run_inv a s st _ _ He Hm) as (_ & _ & _ & _ & _ & _ & H).
Qed.

End RunProperties.

(** The sample runs, evaluated. *)

Lemma main_results_in_order_witness :
  results (list_run_summaries scenario_stream) = [scenario_row; scenario_row].
Proof.
  assert (He : enumerate_crates list_text list_reader list_args
               = ret (2, ["serde"; "rand"])) by (vm_compute; reflexivity).
  assert (Hm : main list_text list_reader always_there download_succeeds
                    (one_crate_world scenario_stream) list_args
               = (Some (list_run_summaries scenario_stream), Completed))
    by (vm_compute; reflexivity).
  assert (E := main_results_in_order list_text list_reader always_there
                 download_succeeds (one_crate_world scenario_stream) list_args
                 (list_run_summaries scenario_stream) 2 ["serde"; "rand"]
                 He Hm).
  vm_compute in E. vm_compute. exact E.
Defined.

Lemma main_crate_counts_witness :
  dict_get (crate_summary (list_run_summaries scenario_stream)) "rand" = Some 1.
Proof.
  assert (He : enumerate_crates list_text list_reader list_args
               = ret (2, ["serde"; "rand"])) by (vm_compute; reflexivity).
  assert (Hm : main list_text list_reader always_there download_succeeds
                    (one_crate_world scenario_stream) list_args
               = (Some (list_run_summaries scenario_stream), Completed))
    by (vm_compute; reflexivity).
  assert (E := main_crate_counts list_text list_reader always_there
                 download_succeeds (one_crate_world scenario_stream) list_args
                 (list_run_summaries scenario_stream) 2 ["serde"; "rand"]
                 "rand" He Hm (or_intror (or_introl eq_refl))).
  vm_compute in E. vm_compute. exact E.
Defined.

Lemma main_pattern_counts_witness :
  count_of (pattern_summary (list_run_summaries scenario_stream)) "FileRead" = 2.
Proof.
  assert (He : enumerate_crates list_text list_reader list_args
               = ret (2, ["serde"; "rand"])) by (vm_compute; reflexivity).
  assert (Hm : main list_text list_reader always_there download_succeeds
                    (one_crate_world scenario_stream) list_args
               = (Some (list_run_summaries scenario_stream), Completed))
    by (vm_compute; reflexivity).
  assert (E := proj1 (main_pattern_counts list_text list_reader always_there
                        download_succeeds (one_crate_world scenario_stream)
                        list_args (list_run_summaries scenario_stream)
                        2 ["serde"; "rand"] "FileRead" He Hm)).
  vm_compute in E. vm_compute. exact E.
Defined.

Lemma main_metadata_witness :
  exists effects metadata,
    scan_crate scenario_stream = ret (effects, metadata) /\
    dict_get (metadata_summary (list_run_summaries scenario_stream)) "serde"
    = Some metadata.
Proof.
  assert (He : enumerate_crates list_text list_reader list_args
               = ret (2, ["serde"; "rand"])) by (vm_compute; reflexivity).
  assert (Hm : main list_text list_reader always_there download_succeeds
                    (one_crate_world scenario_stream) list_args
               = (Some (list_run_summaries scenario_stream), Completed))
    by (vm_compute; reflexivity).
  exact (main_metadata list_text list_reader always_there
           download_succeeds (one_crate_world scenario_stream) list_args
           (list_run_summaries scenario_stream) 2 ["serde"; "rand"]
           "serde" He Hm (or_introl eq_refl)).
Defined.

Lemma main_outcomes_witness :
  ((exists crate,
       In crate ["serde"; "rand"] /\
       scan_crate_bytes no_separator_stream = raise StopIteration) \/
   (main list_text list_reader always_there download_succeeds
         (one_crate_world no_separator_stream) list_args
    = (Some (init_summaries ["serde"; "rand"]), Completed) /\
    exists prefix path text,
      None = Some prefix /\
      In (path, text)
         (saved_results prefix (init_summaries ["serde"; "rand"])) /\
      writes_succeed path text = raise StopIteration)) /\
  (1 = 1 /\ false = false /\
   exists crate,
     In crate ["my_crate"] /\
     never_there (path_join CRATES_DIR crate) = false /\
     download_fails crate (path_join CRATES_DIR crate) <> 0) /\
  ((exists crate,
       In crate ["serde"; "rand"] /\
       scan_crate_bytes scenario_stream = raise OSError) \/
   (main list_text list_reader always_there download_succeeds
         (one_crate_world scenario_stream) saving_args
    = (Some (list_run_summaries scenario_stream), Completed) /\
    exists prefix path text,
      Some "run1" = Some prefix /\
      In (path, text)
         (saved_results prefix (list_run_summaries scenario_stream)) /\
      no_results_dir path text = raise OSError)).
Proof.
  split; [|split].
  - assert (He : enumerate_crates list_text list_reader list_args
                 = ret (2, ["serde"; "rand"])) by (vm_compute; reflexivity).
    assert (Hm : main_and_report writes_succeed list_text list_reader
                   always_there download_succeeds
                   (one_crate_world no_separator_stream) list_args
                 = (Some (init_summaries ["serde"; "rand"]),
                    Raised StopIteration)) by (vm_compute; reflexivity).
    assert (Hv : forall crate,
               In crate ["serde"; "rand"] ->
               forallb utf8_valid
                 (stdout_lines (one_crate_world no_separator_stream
                                  (path_join TEST_CRATES_DIR crate)))
               = true) by (intros crate _; vm_compute; reflexivity).
    exact (main_outcomes list_text list_reader always_there
             download_succeeds (one_crate_world no_separator_stream)
             writes_succeed list_args
             (init_summaries ["serde"; "rand"]) (Raised StopIteration)
             2 ["serde"; "rand"] He Hm Hv).
  - assert (He : enumerate_crates list_text list_reader fetch_args
                 = ret (1, ["my_crate"])) by (vm_compute; reflexivity).
    assert (Hm : main_and_report writes_succeed list_text list_reader
                   never_there download_fails
                   (one_crate_world scenario_stream) fetch_args
                 = (Some (init_summaries ["my_crate"]), SysExit 1))
      by (vm_compute; reflexivity).
    assert (Hv : forall crate,
               In crate ["my_crate"] ->
               forallb utf8_valid
                 (stdout_lines (one_crate_world scenario_stream
                                  (path_join CRATES_DIR crate)))
               = true) by (intros crate _; vm_compute; reflexivity).
    exact (main_outcomes list_text list_reader never_there
             download_fails (one_crate_world scenario_stream)
             writes_succeed fetch_args
             (init_summaries ["my_crate"]) (SysExit 1)
             1 ["my_crate"] He Hm Hv).
  - assert (He : enumerate_crates list_text list_reader saving_args
                 = ret (2, ["serde"; "rand"])) by (vm_compute; reflexivity).
    assert (Hm : main_and_report no_results_dir list_text list_reader
                   always_there download_succeeds
                   (one_crate_world scenario_stream) saving_args
                 = (Some (list_run_summaries scenario_stream), Raised OSError))
      by (vm_compute; reflexivity).
    assert (Hv : forall crate,
               In crate ["serde"; "rand"] ->
               forallb utf8_valid
                 (stdout_lines (one_crate_world scenario_stream
                                  (path_join TEST_CRATES_DIR crate)))
               = true) by (intros crate _; vm_compute; reflexivity).
    exact (main_outcomes list_text list_reader always_there
             download_succeeds (one_crate_world scenario_stream)
             no_results_dir saving_args
             (list_run_summaries scenario_stream) (Raised OSError)
             2 ["serde"; "rand"] He Hm Hv).
Defined.

Lemma main_summary_keys_witness :
  NoDup (keys (crate_summary (list_run_summaries scenario_stream))).
Proof.
  assert (He : enumerate_crates list_text list_reader list_args
               = ret (2, ["serde"; "rand"])) by (vm_compute; reflexivity).
  assert (Hm : main list_text list_reader always_there download_succeeds
                    (one_crate_world scenario_stream) list_args
               = (Some (list_run_summaries scenario_stream), Completed))
    by (vm_compute; reflexivity).
  exact (proj1 (main_summary_keys list_text list_reader always_there
                  download_succeeds (one_crate_world scenario_stream)
                  list_args (list_run_summaries scenario_stream)
                  Completed 2 ["serde"; "rand"] He Hm)).
Defined.

Lemma main_results_accounted_witness :
  Z.of_nat (length (results (list_run_summaries scenario_stream)))
  = sum (values (crate_summary (list_run_summaries scenario_stream))).
Proof.
  assert (He : enumerate_crates list_text list_reader list_args
               = ret (2, ["serde"; "rand"])) by (vm_compute; reflexivity).
  assert (Hm : main list_text list_reader always_there download_succeeds
                    (one_crate_world scenario_stream) list_args
               = (Some (list_run_summaries scenario_stream), Completed))
    by (vm_compute; reflexivity).
  exact (proj1 (main_results_accounted list_text list_reader always_there
                  download_succeeds (one_crate_world scenario_stream)
                  list_args (list_run_summaries scenario_stream)
                  Completed 2 ["serde"; "rand"] He Hm)).
Defined.

Lemma main_results_file_witness :
  stdout_lines (all_results_text (results (list_run_summaries scenario_stream)))
  = [CARGO_SCAN_CSV_HEADER; scenario_row; scenario_row].
Proof.
  assert (He : enumerate_crates list_text list_reader list_args
               = ret (2, ["serde"; "rand"])) by (vm_compute; reflexivity).
  assert (Hm : main list_text list_reader always_there download_succeeds
                    (one_crate_world scenario_stream) list_args
               = (Some (list_run_summaries scenario_stream), Completed))
    by (vm_compute; reflexivity).
  assert (E := main_results_file list_text list_reader always_there
                 download_succeeds (one_crate_world scenario_stream) list_args
                 (list_run_summaries scenario_stream) Completed
                 2 ["serde"; "rand"] He Hm).
  vm_compute in E. vm_compute. exact E.
Defined.
(** ** The result files *)

Lemma append_cancel_l p a b : (p ++ a)%string = (p ++ b)%string -> a = b.
Proof.
  induction p as [|c p IH]; cbn [append]; [auto|].
  intros H. injection H as H. auto.
Qed.

Lemma make_path_results prefix rest :
  make_path RESULTS_DIR prefix (String "_" rest)
  = (results_base prefix ++ prefix ++ String "_" rest)%string.
Proof.
  unfold make_path, path_join, results_base.
  destruct prefix as [|c p]; [reflexivity|].
  destruct c as [[] [] [] [] [] [] [] []]; reflexivity.
Qed.

(** X15: the four result files of a run have four different paths, the
    prefix followed by the four suffixes, under [data/results] unless the
    prefix is an absolute path, which then leaves that directory. *)
Theorem saved_results_paths (prefix : string) (s : summaries) :
  map fst (saved_results prefix s)
  = map (fun suffix => (results_base prefix ++ prefix ++ suffix)%string)
        [RESULTS_ALL_SUFFIX; RESULTS_PATTERN_SUFFIX;
         RESULTS_SUMMARY_SUFFIX; RESULTS_METADATA_SUFFIX] /\
  NoDup (map fst (saved_results prefix s)).
Proof.
  assert (E : map fst (saved_results prefix s)
              = map (fun suffix => (results_base prefix ++ prefix ++ suffix)%string)
                    [RESULTS_ALL_SUFFIX; RESULTS_PATTERN_SUFFIX;
                     RESULTS_SUMMARY_SUFFIX; RESULTS_METADATA_SUFFIX]).
  { unfold saved_results. cbn [map fst].
    unfold RESULTS_ALL_SUFFIX, RESULTS_PATTERN_SUFFIX, RESULTS_SUMMARY_SUFFIX,
      RESULTS_METADATA_SUFFIX.
    now rewrite !make_path_results. }
  split; [exact E|]. rewrite E. cbn [map].
  repeat constructor; cbn [In]; intros H;
    repeat (destruct H as [H|H];
            [apply append_cancel_l, append_cancel_l in H; discriminate H|]);
    exact H.
Qed.

(** ** The crate report *)

Lemma crate_summary_fold xs :
  forall result num_nonzero num_zero,
    fold_left crate_summary_step xs (result, num_nonzero, num_zero)
    = ((result ++ render_lines (filter (fun x => snd x >? 0) xs))%string,
       num_nonzero + Z.of_nat (length (filter (fun x => snd x >? 0) xs)),
       num_zero + Z.of_nat (length (filter (fun x => negb (snd x >? 0)) xs))).
Proof.
  induction xs as [|x xs IH]; intros result nz z; cbn [fold_left filter].
  - cbn [render_lines fold_right length]. rewrite append_nil_r.
    apply (f_equal2 pair); [apply (f_equal2 pair)|]; try reflexivity; lia.
  - unfold crate_summary_step at 2. destruct (snd x >? 0); cbn [negb].
    + rewrite IH. cbn [render_lines fold_right length].
      fold (render_lines (filter (fun x => snd x >? 0) xs)).
      rewrite append_assoc.
      apply (f_equal2 pair); [apply (f_equal2 pair)|]; try reflexivity; lia.
    + rewrite IH. cbn [length].
      apply (f_equal2 pair); [apply (f_equal2 pair)|]; try reflexivity; lia.
Qed.

Lemma insert_desc_filter_length (f : string * Z -> bool) x l :
  length (filter f (insert_desc x l)) = length (filter f (x :: l)).
Proof.
  induction l as [|y l IH]; [reflexivity|]. cbn [insert_desc].
  destruct (snd y <=? snd x); [reflexivity|].
  cbn [filter] in *. destruct (f y), (f x); cbn [length] in *; lia.
Qed.

Lemma sort_summary_dict_filter_length (f : string * Z -> bool) (d : dict Z) :
  length (filter f (sort_summary_dict d)) = length (filter f (items d)).
Proof.
  unfold sort_summary_dict, items. induction d as [|x d IH]; [reflexivity|].
  cbn [fold_right]. rewrite insert_desc_filter_length.
  cbn [filter]. destruct (f x); cbn [length]; lia.
Qed.

Lemma filter_length_split {A} (f : A -> bool) (l : list A) :
  (length (filter f l) + length (filter (fun x => negb (f x)) l))%nat
  = length l.
Proof.
  induction l as [|x l IH]; [reflexivity|]. cbn [filter].
  destruct (f x); cbn [negb length]; lia.
Qed.

Lemma Permutation_filter_same {A} (f : A -> bool) (l l' : list A) :
  Permutation l l' -> Permutation (filter f l) (filter f l').
Proof.
  induction 1 as [|x l l' _ IH|x y l|l l' l'' _ IH1 _ IH2]; cbn [filter].
  - constructor.
  - destruct (f x); [now constructor|exact IH].
  - destruct (f x), (f y); try reflexivity. apply perm_swap.
  - now rewrite IH1.
Qed.

Lemma StronglySorted_filter {A} (R : A -> A -> Prop) (f : A -> bool) l :
  StronglySorted R l -> StronglySorted R (filter f l).
Proof.
  induction 1 as [|x l _ IH Hx]; cbn [filter]; [constructor|].
  destruct (f x); [|exact IH]. constructor; [exact IH|].
  apply Forall_forall. intros y Hy. apply filter_In in Hy.
  rewrite Forall_forall in Hx. now apply Hx.
Qed.

Lemma filter_filter_swap {A} (f g : A -> bool) l :
  filter f (filter g l) = filter g (filter f l).
Proof.
  induction l as [|x l IH]; [reflexivity|]. cbn [filter].
  destruct (f x) eqn:Ef, (g x) eqn:Eg; cbn [filter];
    rewrite ?Ef, ?Eg, IH; reflexivity.
Qed.

(** X16: the crate report is its two banner lines, one line [crate: count]
    for each crate with at least one finding, and the totals: the number of
    crates listed and the number of crates left out, which add up to the
    number of crates in the summary.  The crates listed are the crates of
    the summary with a positive count, by descending count, crates with the
    same count in the order of the summary. *)
Theorem crate_report (summary : dict Z) :
  let newline := String "010" "" in
  let decimal := fun n => NilZero.string_of_int (Z.to_int n) in
  let positive := fun x : string * Z => snd x >? 0 in
  let listed := filter positive (sort_summary_dict summary) in
  let num_nonzero := Z.of_nat (length (filter positive (items summary))) in
  let num_zero :=
    Z.of_nat (length (filter (fun x => negb (positive x)) (items summary))) in
  make_crate_summary summary
  = ("===== Crate Summary =====" ++ newline
     ++ "Number of effects by crate:" ++ newline
     ++ String.concat ""
          (map (fun x => fst x ++ ": " ++ decimal (snd x) ++ newline) listed)
     ++ "===== Crate Totals =====" ++ newline
     ++ decimal num_nonzero ++ " crates with 1 or more effects" ++ newline
     ++ decimal num_zero ++ " crates with 0 effects" ++ newline)%string /\
  Permutation listed (filter positive (items summary)) /\
  StronglySorted by_count_desc listed /\
  (forall n,
      filter (fun x => snd x =? n) listed
      = filter (fun x => snd x =? n) (filter positive (items summary))) /\
  length listed = Z.to_nat num_nonzero /\
  num_nonzero + num_zero = Z.of_nat (length (items summary)).
Proof.
  cbv zeta.
  destruct (sort_summary_dict_order summary) as (Hp & Hs & Hf).
  split; [|split; [|split; [|split; [|split]]]].
  - unfold make_crate_summary.
    rewrite crate_summary_fold. rewrite !sort_summary_dict_filter_length.
    rewrite concat_lines. cbn [Z.add].
    unfold crate_banner, crate_totals, line, render_lines, pattern_line,
      str_of_int, nl.
    rewrite !append_assoc. reflexivity.
  - now apply Permutation_filter_same.
  - now apply StronglySorted_filter.
  - intros n. rewrite filter_filter_swap, Hf. apply filter_filter_swap.
  - rewrite sort_summary_dict_filter_length. now rewrite Nat2Z.id.
  - rewrite <- Nat2Z.inj_add. f_equal. apply filter_length_split.
Qed.

Example crate_report_sample :
  make_crate_summary [("serde", 0); ("rand", 2); ("libc", 5)]
  = String.concat (String "010" "")
      ["===== Crate Summary ====="; "Number of effects by crate:";
       "libc: 5"; "rand: 2";
       "===== Crate Totals =====";
       "2 crates with 1 or more effects"; "1 crates with 0 effects"; ""].
Proof. vm_compute. reflexivity. Qed.

(** ** The metadata report *)

Lemma insert_desc_by_counts x l : insert_desc_by Z.leb x l = insert_desc x l.
Proof.
  induction l as [|y l IH]; [reflexivity|]. cbn [insert_desc_by insert_desc].
  now rewrite IH.
Qed.

(** The sort of the count summaries is the sort by [<=] on the counts. *)
Lemma sort_summary_dict_by_counts (d : dict Z) :
  sort_summary_dict_by Z.leb d = sort_summary_dict d.
Proof.
  unfold sort_summary_dict_by, sort_summary_dict, items.
  induction d as [|x d IH]; [reflexivity|]. cbn [fold_right].
  now rewrite IH, insert_desc_by_counts.
Qed.

Section SortBy.

Context {V : Type}.
Variable leb : V -> V -> bool.
Hypothesis leb_total : forall a b, leb a b = true \/ leb b a = true.

Local Abbreviation desc_by' := (desc_by leb).

Lemma insert_desc_by_perm x l : Permutation (insert_desc_by leb x l) (x :: l).
Proof.
  induction l as [|y l IH]; cbn [insert_desc_by]; [reflexivity|].
  destruct (leb (snd y) (snd x)); [reflexivity|].
  rewrite IH. apply perm_swap.
Qed.

Lemma insert_desc_by_hd y x l :
  HdRel desc_by' y l -> desc_by' y x -> HdRel desc_by' y (insert_desc_by leb x l).
Proof.
  intros Hl Hx. destruct l as [|z l]; cbn [insert_desc_by].
  - now constructor.
  - destruct (leb (snd z) (snd x)); constructor; [exact Hx|].
    now inversion Hl.
Qed.

Lemma insert_desc_by_sorted x l :
  Sorted desc_by' l -> Sorted desc_by' (insert_desc_by leb x l).
Proof.
  induction 1 as [|y l Hs IH Hy]; cbn [insert_desc_by].
  - repeat constructor.
  - destruct (leb (snd y) (snd x)) eqn:E.
    + constructor; [now constructor|]. now constructor.
    + constructor; [exact IH|]. apply insert_desc_by_hd; [exact Hy|].
      unfold desc_by. destruct (leb_total (snd y) (snd x)); congruence.
Qed.

Lemma sort_summary_dict_by_sorted (d : dict V) :
  Permutation (sort_summary_dict_by leb d) (items d) /\
  Sorted desc_by' (sort_summary_dict_by leb d).
Proof.
  unfold sort_summary_dict_by, items.
  induction d as [|x d [IHp IHs]]; cbn [fold_right].
  - split; constructor.
  - split; [|now apply insert_desc_by_sorted].
    rewrite insert_desc_by_perm. now constructor.
Qed.

End SortBy.

Lemma fold_left_metadata_lines xs :
  forall r,
    fold_left (fun result x => (result ++ metadata_line x)%string) xs r
    = (r ++ fold_right (fun x t => (metadata_line x ++ t)%string) "" xs)%string.
Proof.
  induction xs as [|x xs IH]; intros r; cbn [fold_left fold_right].
  - now rewrite append_nil_r.
  - now rewrite IH, append_assoc.
Qed.

Lemma insert_desc_by_filter_row m x l :
  filter (fun y => String.eqb (snd y) m) (insert_desc_by String.leb x l)
  = filter (fun y => String.eqb (snd y) m) (x :: l).
Proof.
  induction l as [|y l IH]; [reflexivity|].
  cbn [insert_desc_by]. destruct (String.leb (snd y) (snd x)) eqn:E;
    [reflexivity|].
  cbn [filter] in *. rewrite IH.
  destruct (String.eqb_spec (snd x) m) as [Hx|Hx]; [|reflexivity].
  destruct (String.eqb_spec (snd y) m) as [Hy|Hy]; [|reflexivity].
  rewrite Hx, Hy in E.
  destruct (String.leb_total m m); congruence.
Qed.

Lemma sort_summary_dict_by_filter_row m (d : dict string) :
  filter (fun y => String.eqb (snd y) m) (sort_summary_dict_by String.leb d)
  = filter (fun y => String.eqb (snd y) m) (items d).
Proof.
  unfold sort_summary_dict_by, items. induction d as [|x d IH]; [reflexivity|].
  cbn [fold_right]. rewrite insert_desc_by_filter_row.
  cbn [filter]. now rewrite IH.
Qed.

Lemma metadata_lines_format xs :
  fold_right (fun x t => (metadata_line x ++ t)%string) "" xs
  = fold_right
      (fun x t => ((fst x ++ ", " ++ snd x ++ String "010" "") ++ t)%string)
      "" xs.
Proof.
  induction xs as [|x xs IH]; [reflexivity|].
  cbn [fold_right]. rewrite IH. unfold metadata_line, line, nl.
  now rewrite !append_assoc.
Qed.

(** X17: the metadata report is the line [crate, <metadata header>]
    followed by one line [crate, row] per crate of the metadata summary,
    none lost and none twice, in descending order of the metadata rows as
    strings, crates with the same row in the order of the summary. *)
Theorem metadata_report (summary : dict string) :
  let newline := String "010" "" in
  let metadata_sorted := sort_summary_dict_by String.leb summary in
  make_metadata_csv summary
  = ("crate, " ++ CARGO_SCAN_METADATA_HEADER ++ newline
     ++ String.concat ""
          (map (fun x => fst x ++ ", " ++ snd x ++ newline) metadata_sorted))%string /\
  Permutation metadata_sorted (items summary) /\
  Sorted (fun x y => String.leb (snd y) (snd x) = true) metadata_sorted /\
  forall row,
    filter (fun x => String.eqb (snd x) row) metadata_sorted
    = filter (fun x => String.eqb (snd x) row) (items summary).
Proof.
  cbv zeta. split; [|split; [|split]].
  - unfold make_metadata_csv. rewrite fold_left_metadata_lines.
    rewrite concat_lines, <- metadata_lines_format.
    unfold metadata_banner, line, nl. now rewrite !append_assoc.
  - apply (sort_summary_dict_by_sorted String.leb String.leb_total).
  - apply (sort_summary_dict_by_sorted String.leb String.leb_total).
  - intros row. apply sort_summary_dict_by_filter_row.
Qed.

Example metadata_report_sample :
  make_metadata_csv [("serde", "5, 1"); ("rand", "7, 2"); ("libc", "")]
  = String.concat (String "010" "")
      [("crate, " ++ CARGO_SCAN_METADATA_HEADER)%string;
       "rand, 7, 2"; "serde, 5, 1"; "libc, "; ""].
Proof. vm_compute. reflexivity. Qed.

(** ** Progress lines *)

(** X18: a progress line is logged only in runs of at least ten crates, at
    a positive multiple of a tenth of the crate count (rounded down); the
    percentage it shows is [100 * i // num_crates], never negative, and
    below 100 as long as the iteration index is below the crate count. *)
Theorem progress_message_bounds (num_crates i p : Z) :
  progress_message num_crates i = Some p ->
  PROGRESS_INCS <= num_crates /\ 0 < i /\
  i mod (num_crates / PROGRESS_INCS) = 0 /\
  p = 100 * i / num_crates /\ 0 <= p /\
  (i < num_crates -> p < 100).
Proof.
  unfold progress_message, PROGRESS_INCS.
  destruct (Z.gtb_spec (num_crates / 10) 0) as [Hq|]; [|discriminate].
  destruct (Z.gtb_spec i 0) as [Hi|]; [|discriminate].
  cbn [andb].
  destruct (Z.eqb_spec (i mod (num_crates / 10)) 0) as [Hm|]; [|discriminate].
  intros H.
  assert (Hp : p = 100 * i / num_crates) by congruence. clear H.
  assert (Hn : 10 <= num_crates).
  { destruct (Z_lt_le_dec num_crates 10) as [Hlt|]; [|assumption].
    destruct (Z_lt_le_dec num_crates 0) as [Hneg|Hpos].
    - assert (num_crates / 10 < 0) by (apply Z.div_lt_upper_bound; lia). lia.
    - rewrite Z.div_small in Hq by lia. lia. }
  split; [exact Hn|]. split; [exact Hi|]. split; [exact Hm|].
  split; [exact Hp|]. clear Hq Hm. rewrite Hp. split.
  - apply Z.div_pos; lia.
  - intros Hlt. apply Z.div_lt_upper_bound; lia.
Qed.

Lemma progress_message_bounds_witness :
  PROGRESS_INCS <= 20 /\ 0 < 4 /\ 4 mod (20 / PROGRESS_INCS) = 0 /\
  20 = 100 * 4 / 20 /\ 0 <= 20 /\ (4 < 20 -> 20 < 100).
Proof. apply (progress_message_bounds 20 4 20). reflexivity. Defined.

(** ** Edge cases of the package list *)

Lemma readlines_nil s : readlines s = [] <-> s = "".
Proof.
  split; [|now intros ->]. destruct s as [|c s]; [reflexivity|].
  cbn [readlines]. destruct (Ascii.eqb c nl); [discriminate|].
  destruct (readlines s); discriminate.
Qed.

Lemma universal_newlines_nil s : universal_newlines s = "" <-> s = "".
Proof.
  split; [|now intros ->]. destruct s as [|c s]; [reflexivity|].
  cbn [universal_newlines]. destruct (Ascii.eqb c cr); discriminate.
Qed.

(** X19: counting lines with the header row taken off gives one less than
    counting them all, and gives -1, not 0, exactly when the list file is
    empty. *)
Theorem count_lines_empty (read_text : string -> string) (cratefile : string) :
  count_lines read_text cratefile true
  = count_lines read_text cratefile false - 1 /\
  -1 <= count_lines read_text cratefile true /\
  (count_lines read_text cratefile true = -1 <-> read_text cratefile = "").
Proof.
  unfold count_lines, text_readlines. split; [reflexivity|]. split; [lia|].
  rewrite <- universal_newlines_nil, <- readlines_nil.
  destruct (readlines (universal_newlines (read_text cratefile))); cbn [length].
  - split; [reflexivity|]. intros _. reflexivity.
  - split; [lia|discriminate].
Qed.

Lemma crate_names_from_blank rows :
  Forall (fun row => row <> []) rows ->
  forall i crates after,
    0 < i ->
    crate_names_from i (rows ++ [] :: after) crates = raise IndexError.
Proof.
  induction 1 as [|row rows Hrow _ IH]; intros i crates after Hi;
    cbn [app crate_names_from].
  - destruct (Z.gtb_spec i 0) as [_|]; [reflexivity|lia].
  - destruct (Z.gtb_spec i 0) as [_|]; [|lia].
    destruct row as [|c row]; [contradiction|]. cbn [nth_error].
    apply IH. lia.
Qed.

(** X20: [get_crate_names] returns no crate for a list file with no row or
    with one row only, and raises [IndexError] at the first row after the
    first that has no column, as the row of a blank line has none. *)
Theorem get_crate_names_edges (csv_reader : string -> list (list string))
        (cratefile : string) :
  (csv_reader cratefile = [] -> get_crate_names csv_reader cratefile = ret []) /\
  (forall first,
      csv_reader cratefile = [first] ->
      get_crate_names csv_reader cratefile = ret []) /\
  (forall first before after,
      csv_reader cratefile = first :: before ++ [] :: after ->
      Forall (fun row => row <> []) before ->
      get_crate_names csv_reader cratefile = raise IndexError).
Proof.
  unfold get_crate_names. split; [|split].
  - now intros ->.
  - now intros first ->.
  - intros first before after -> Hb. cbn [crate_names_from].
    destruct (Z.gtb_spec 0 0) as [|_]; [lia|].
    apply crate_names_from_blank; [exact Hb|lia].
Qed.

Lemma get_crate_names_edges_witness :
  get_crate_names (fun _ => [["name"]; ["serde"]; []; ["rand"]]) "crates.csv"
  = raise IndexError.
Proof.
  apply (proj2 (proj2 (get_crate_names_edges
                         (fun _ => [["name"]; ["serde"]; []; ["rand"]])
                         "crates.csv"))
               ["name"] [["serde"]] [["rand"]]).
  - reflexivity.
  - constructor; [discriminate|constructor].
Defined.
